(** * Changelog entry validation and the skip policy

    A shallow embedding of the decision logic of the OpenSearch changelog
    workflow:

    - [isValidChangelogEntry] and [isSkipEntry] of
      [src/utils/validators.utils.js];
    - [updatePRLabel] and [handleSkipOption] of the GitHub utilities.

    JavaScript strings are sequences of code units; the code units modelled
    here are the ones below 256, one [ascii] each, so that [String.length] is
    the [length] property.  A value that is either a string or [undefined]
    is an [option string].  A synchronous function that may throw returns a
    [completion]; an [async] function against the hosting API is a state
    and exception computation over the state of the remote repository. *)

From Stdlib Require Import ZArith Ascii String List Bool Lia.
From stdpp Require Import base option list gmap strings fin_maps fin_sets.

Local Open Scope string_scope.
Local Open Scope Z_scope.

(** ** JavaScript strings *)

Module JsString.

(** Code units that [String.prototype.trim] and the [\s] class of regular
    expressions count as white space: TAB, LF, VT, FF, CR, SPACE and the
    no-break space U+00A0. *)
Definition isWhiteSpace (c : ascii) : bool :=
  let n := nat_of_ascii c in
  ((9 <=? n) && (n <=? 13) || (n =? 32) || (n =? 160))%nat.

(** The lower-case mapping of one code unit: A-Z, and in the Latin-1 block
    U+00C0-U+00DE without the multiplication sign U+00D7. *)
Definition lowerUnit (c : ascii) : ascii :=
  let n := nat_of_ascii c in
  if ((65 <=? n) && (n <=? 90)
      || (192 <=? n) && (n <=? 222) && negb (n =? 215))%nat
  then ascii_of_nat (n + 32) else c.

Fixpoint toLowerCase (s : string) : string :=
  match s with
  | EmptyString => EmptyString
  | String c s' => String (lowerUnit c) (toLowerCase s')
  end.

Fixpoint trimStart (s : string) : string :=
  match s with
  | EmptyString => EmptyString
  | String c s' => if isWhiteSpace c then trimStart s' else s
  end.

(** [trimEnd] keeps a code unit when it is not white space or when
    something that is kept follows it. *)
Fixpoint trimEnd (s : string) : string :=
  match s with
  | EmptyString => EmptyString
  | String c s' =>
      match trimEnd s' with
      | EmptyString => if isWhiteSpace c then EmptyString
                       else String c EmptyString
      | rest => String c rest
      end
  end.

Definition trim (s : string) : string := trimEnd (trimStart s).

(** Truthiness of a value that is a string or [undefined]: only a
    non-empty string is truthy. *)
Definition truthy (v : option string) : bool :=
  match v with
  | Some s => negb (String.eqb s "")
  | None => false
  end.

(** Strict equality [v === s] of such a value with a string. *)
Definition strictEq (v : option string) (s : string) : bool :=
  match v with
  | Some s' => String.eqb s' s
  | None => false
  end.

Definition jsLength (s : string) : Z := Z.of_nat (String.length s).

End JsString.

Import JsString.

(** [Array.prototype.includes] on a list of strings. *)
Definition includes (l : list string) (x : string) : bool :=
  bool_decide (x ∈ l).

(** ** Failures *)

(** The error classes the modelled functions throw, with the constructor
    arguments the source passes; [TypeError] is the engine's own failure on
    destructuring [null] or reading a property of [undefined]. *)
Inductive error : Type :=
| ChangelogEntryMissingHyphenError
| InvalidPrefixError (prefix : string)
| InvalidPrefixForManualChangesetCreationError (prefix : string)
| InvalidAdditionalPrefixWithSkipEntryOptionError
| EmptyEntryDescriptionError (prefix : string)
| EntryTooLongError (length : Z)
| CategoryWithSkipOptionError
| UpdatePRLabelError
| TypeError
| RequestError (status : Z).

Inductive completion (A : Type) : Type :=
| Return (a : A)
| Throw (e : error).
Arguments Return {A} a.
Arguments Throw {A} e.

(** The typed validation errors of [isValidChangelogEntry], as opposed to a
    failure of the engine. *)
Definition isValidationError (e : error) : bool :=
  match e with
  | ChangelogEntryMissingHyphenError
  | InvalidPrefixError _
  | InvalidPrefixForManualChangesetCreationError _
  | InvalidAdditionalPrefixWithSkipEntryOptionError
  | EmptyEntryDescriptionError _
  | EntryTooLongError _ => true
  | _ => false
  end.

(** ** Entry validation *)

(** The result of [String.prototype.match]: [null], or an array whose
    elements are strings or [undefined]; for a pattern without the [g] flag
    the array holds the whole match followed by the capture groups, a group
    that did not take part being [undefined]. *)
Definition MatchResult : Type := option (list (option string)).

(** The object literal [{ prefix, trimmedLog }]. *)
Record ValidatedEntry : Type := mkValidatedEntry {
  prefix : string;
  trimmedLog : string
}.

Section Validators.

(** The constants imported from [config/constants.js], a file that is not
    among the sources: they are parameters of the development.  The pattern
    is used only through
    [changelogEntry.match(ENTRY_FORMATTING_PATTERN_REGEX)], so it is taken
    as the function from the line to the match result. *)
Variable MAX_ENTRY_LENGTH : Z.
Variable CHANGELOG_ENTRY_PREFIXES : list string.
Variable ENTRY_FORMATTING_PATTERN_REGEX : string -> MatchResult.

(** Element [i] of the match array, [undefined] beyond its end. *)
Definition group (groups : list (option string)) (i : nat) : option string :=
  mjoin (groups !! i).

(** The branch [changesetCreationMode === "manual"]. *)
Definition manualBranch (marker prefix : option string)
  : completion unit :=
  if negb (strictEq marker "-") then
    Throw ChangelogEntryMissingHyphenError
  else
    match prefix with
    | None => Throw TypeError
    | Some p =>
        if negb (String.eqb (toLowerCase p) "skip") then
          Throw (InvalidPrefixForManualChangesetCreationError p)
        else Return tt
    end.

(** The [else] branch. *)
Definition normalBranch (marker prefix log : option string)
  (trimmedLog : string) (totalEntries : Z) : completion unit :=
  if negb (strictEq marker "-") then
    Throw ChangelogEntryMissingHyphenError
  else
    match prefix with
    | None => Throw TypeError
    | Some p =>
        if negb (includes CHANGELOG_ENTRY_PREFIXES (toLowerCase p)) then
          Throw (InvalidPrefixError p)
        else if String.eqb p "skip" && (totalEntries >? 1) then
          Throw InvalidAdditionalPrefixWithSkipEntryOptionError
        else if negb (String.eqb p "skip") && negb (truthy log) then
          Throw (EmptyEntryDescriptionError p)
        else if jsLength trimmedLog >? MAX_ENTRY_LENGTH then
          match log with
          | Some l => Throw (EntryTooLongError (jsLength l))
          | None => Throw TypeError
          end
        else Return tt
    end.

(** [log ? log.trim() : ""]. *)
Definition trimmedLogOf (log : option string) : string :=
  match log with
  | Some l => if truthy log then trim l else ""
  | None => ""
  end.

Definition isValidChangelogEntry (changelogEntry : string)
  (totalEntries : Z) (changesetCreationMode : string)
  : completion ValidatedEntry :=
  match ENTRY_FORMATTING_PATTERN_REGEX changelogEntry with
  | None => Throw TypeError
  | Some groups =>
      let marker := group groups 1 in
      let prefix := group groups 2 in
      let log := group groups 3 in
      let trimmedLog := trimmedLogOf log in
      let checks :=
        if String.eqb changesetCreationMode "manual"
        then manualBranch marker prefix
        else normalBranch marker prefix log trimmedLog totalEntries in
      match checks with
      | Throw e => Throw e
      | Return _ =>
          (* both branches have read [prefix.toLowerCase()] by now *)
          match prefix with
          | Some p => Return (mkValidatedEntry p trimmedLog)
          | None => Throw TypeError
          end
      end
  end.

(** [Object.keys] of an entry map, an object from prefixes to entry texts. *)
Definition Object_keys (entryMap : gmap string string) : list string :=
  (map_to_list entryMap).*1.

(** [entryMap] is an object, which is truthy, or [None] for a [null] or
    [undefined] argument, which is falsy. *)
Definition isSkipEntry (entryMap : option (gmap string string)) : bool :=
  match entryMap with
  | Some m => if includes (Object_keys m) "skip" then true else false
  | None => false
  end.

End Validators.

(** ** The entry grammar *)

Module EntryGrammar.

(** Modelled from the spec: the pattern itself is missing from the sources
    (see [entryPattern] below); this is the class of line terminators,
    which [.] does not match. *)
Definition isLineTerminator (c : ascii) : bool :=
  let n := nat_of_ascii c in ((n =? 10) || (n =? 13))%nat.

(** Modelled from the spec: part of [entryPattern]; the description is the
    rest of a single line. *)
Fixpoint hasLineTerminator (s : string) : bool :=
  match s with
  | EmptyString => false
  | String c s' => isLineTerminator c || hasLineTerminator s'
  end.

(** Modelled from the spec: part of [entryPattern]; the code units of a
    prefix token. *)
Definition isTokenUnit (c : ascii) : bool :=
  negb (isWhiteSpace c) && negb (Ascii.eqb c ":").

(** Modelled from the spec: part of [entryPattern]; the longest run of
    token code units at the head of [s], and what follows it. *)
Fixpoint takeToken (s : string) : string * string :=
  match s with
  | EmptyString => (EmptyString, EmptyString)
  | String c s' =>
      if isTokenUnit c
      then let '(tok, rest) := takeToken s' in (String c tok, rest)
      else (EmptyString, s)
  end.

(** Modelled from the spec: part of [entryPattern]; after the optional
    marker come white space, the prefix token, white space, the colon,
    white space, and the description up to the end of the line; the
    description group takes no part in an empty match. *)
Definition matchAfterMarker (whole : string) (marker : option string)
  (s : string) : MatchResult :=
  let '(tok, rest) := takeToken (trimStart s) in
  if String.eqb tok "" then None
  else
    match trimStart rest with
    | String ":"%char rest' =>
        let d := trimStart rest' in
        if hasLineTerminator d then None
        else Some [Some whole; marker; Some tok;
                   if String.eqb d "" then None else Some d]
    | _ => None
    end.

(** Modelled from the spec: [ENTRY_FORMATTING_PATTERN_REGEX] is defined in
    [config/constants.js], which is not among the sources.  The
    specification gives the grammar as
    [^(marker)\s*(prefix)\s*:\s*(description)?$] with optional leading
    white space, a hyphen marker that may be absent (the marker of a
    parsed entry is a string or undefined), a prefix token, a colon and an
    optional description.  The prefix token is read here as a non-empty
    run of code units other than white space and the colon.  The marker is
    tried first and given up when the rest does not match with it, as a
    backtracking matcher does. *)
Definition entryPattern (line : string) : MatchResult :=
  match trimStart line with
  | String "-"%char rest =>
      match matchAfterMarker line (Some "-") rest with
      | Some groups => Some groups
      | None => matchAfterMarker line None (trimStart line)
      end
  | s => matchAfterMarker line None s
  end.

(** Modelled from the spec: a taxonomy and a maximum length to run the
    validator with; the specification's scenarios use the prefixes
    [feat], [fix] and [skip], and leave the maximum open. *)
Definition scenarioPrefixes : list string := ["feat"; "fix"; "skip"].
Definition scenarioMaxLength : Z := 100.

End EntryGrammar.

(** ** Calls to the hosting API *)

(** An [async] function runs against the state [W] of the remote
    repository: awaited, it completes with a value or throws, and leaves a
    state behind in both cases. *)
Definition Async (W A : Type) : Type := W -> completion A * W.

Section AsyncOps.
Context {W : Type}.

Definition resolve {A} (a : A) : Async W A := fun w => (Return a, w).

Definition reject {A} (e : error) : Async W A := fun w => (Throw e, w).

(** [await c] followed by [k]. *)
Definition await {A B} (c : Async W A) (k : A -> Async W B) : Async W B :=
  fun w =>
    match c w with
    | (Return a, w') => k a w'
    | (Throw e, w') => (Throw e, w')
    end.

(** [try { c } catch (error) { h error }]. *)
Definition tryCatch {A} (c : Async W A) (h : error -> Async W A)
  : Async W A :=
  fun w =>
    match c w with
    | (Return a, w') => (Return a, w')
    | (Throw e, w') => h e w'
    end.

End AsyncOps.

Notation "x <~ c ;; k" := (await c (fun x => k))
  (at level 100, c at next level, right associativity).

(** A label as the API lists it. *)
Record Label : Type := mkLabel { name : string }.

(** The three [octokit.rest.issues] operations the label utility calls,
    each with its [owner], [repo] and issue number. *)
Record Octokit (W : Type) : Type := mkOctokit {
  listLabelsOnIssue : string -> string -> Z -> Async W (list Label);
  addLabels : string -> string -> Z -> list string -> Async W unit;
  removeLabel : string -> string -> Z -> string -> Async W unit
}.
Arguments listLabelsOnIssue {W} _.
Arguments addLabels {W} _.
Arguments removeLabel {W} _.

Section GithubUtils.
Context {W : Type}.

(** The constant imported from [config/constants.js], a parameter here. *)
Variable SKIP_LABEL : string.

Definition updatePRLabel (octokit : Octokit W) (owner repo : string)
  (prNumber : Z) (label : string) (addLabel : bool) : Async W unit :=
  tryCatch
    (currentLabels <~ listLabelsOnIssue octokit owner repo prNumber ;;
     let labelExists :=
       existsb (fun element => String.eqb (name element) (toLowerCase label))
               currentLabels in
     if addLabel && negb labelExists then
       addLabels octokit owner repo prNumber [label]
     else if negb addLabel && labelExists then
       removeLabel octokit owner repo prNumber label
     else resolve tt)
    (fun _ => reject UpdatePRLabelError).

(** The type of the [updateLabel] argument of [handleSkipOption]. *)
Definition UpdateLabel : Type :=
  Octokit W -> string -> string -> Z -> string -> bool -> Async W unit.

Definition handleSkipOption (octokit : Octokit W)
  (entryMap : option (gmap string string)) (owner repo : string)
  (prNumber : Z) (updateLabel : UpdateLabel) : Async W bool :=
  let withoutSkip : Async W bool :=
    _ <~ updateLabel octokit owner repo prNumber SKIP_LABEL false ;;
    resolve false in
  match entryMap with
  | Some m =>
      if includes (Object_keys m) "skip" then
        if Z.of_nat (length (Object_keys m)) >? 1 then
          reject CategoryWithSkipOptionError
        else
          _ <~ updateLabel octokit owner repo prNumber SKIP_LABEL true ;;
          resolve true
      else withoutSkip
  | None => withoutSkip
  end.

End GithubUtils.

(** ** A hosting API in memory *)

Module FakeHost.

(** The state of one pull request: whether the API answers, and the
    labels on the pull request. *)
Record Host : Type := mkHost { online : bool; labels : list Label }.

Definition guarded {A} (c : Async Host A) : Async Host A :=
  fun h => if online h then c h else (Throw (RequestError 503), h).

Definition octokit : Octokit Host :=
  {| listLabelsOnIssue := fun _ _ _ =>
       guarded (fun h => (Return (labels h), h));
     addLabels := fun _ _ _ new =>
       guarded (fun h =>
         (Return tt, mkHost (online h) (labels h ++ map mkLabel new)));
     removeLabel := fun _ _ _ l =>
       guarded (fun h =>
         (Return tt,
          mkHost (online h)
            (filter (fun x => negb (String.eqb (name x) l)) (labels h))))
  |}.

End FakeHost.

(** ** The other utilities *)

(** What a function of the file and configuration utilities does: it
    completes, or throws one of the error classes [E] that it constructs
    itself. *)
Inductive outcome (E A : Type) : Type :=
| Completes (a : A)
| Throws (e : E).
Arguments Completes {E A} a.
Arguments Throws {E A} e.

(** [error.status] of a caught error: the status of a failed request,
    [undefined] on any other error. *)
Definition statusOf (e : error) : option Z :=
  match e with
  | RequestError status => Some status
  | _ => None
  end.

(** *** The pull request has the [autocut] label *)

Module PrData.

(** The fields of [prData] the validators read. *)
Record t : Type := mk {
  baseOwner : string;
  baseRepo : string;
  prNumber : Z;
  headOwner : string;
  headRepo : string
}.

End PrData.

Section Autocut.
Context {W : Type}.

Definition isAutocut (octokit : Octokit W) (prData : PrData.t)
  : Async W bool :=
  tryCatch
    (labels <~ listLabelsOnIssue octokit (PrData.baseOwner prData)
                 (PrData.baseRepo prData) (PrData.prNumber prData) ;;
     let found :=
       existsb (fun label => String.eqb (toLowerCase (name label)) "autocut")
               labels in
     resolve found)
    (fun _ => resolve false).

End Autocut.

(** *** Configuration guards *)

Inductive ConfigError : Type :=
| MissingChangelogPullRequestBridgeUrlDomainError
| MissingChangelogPullRequestBridgeApiKeyError.

(** [!constant || constant.trim() === ""], for a constant that is a string
    or, when it was never set, [undefined]. *)
Definition notConfigured (constant : option string) : bool :=
  negb (truthy constant)
  || match constant with
     | Some s => String.eqb (trim s) ""
     | None => false
     end.

Definition checkChangelogPrBridgeUrlDomainIsConfigured
  (CHANGELOG_PR_BRIDGE_URL_DOMAIN : option string)
  : outcome ConfigError unit :=
  if notConfigured CHANGELOG_PR_BRIDGE_URL_DOMAIN
  then Throws MissingChangelogPullRequestBridgeUrlDomainError
  else Completes tt.

Definition checkChangelogPrBridgeApiKeyIsConfigured
  (CHANGELOG_PR_BRIDGE_API_KEY : option string)
  : outcome ConfigError unit :=
  if notConfigured CHANGELOG_PR_BRIDGE_API_KEY
  then Throws MissingChangelogPullRequestBridgeApiKeyError
  else Completes tt.

(** *** Error objects and the comment on the pull request *)

Module CustomErrors.

(** An error object as [getErrorComment] reads it; an error without the
    [shouldResultInPRComment] property has a falsy one. *)
Record ErrorObject : Type := mkError {
  name : string;
  message : string;
  shouldResultInPRComment : bool
}.

(** The line feed of a template literal. *)
Definition LF : string := String (ascii_of_nat 10) EmptyString.

Section Classes.

(** Constants imported from [config/constants.js], parameters here. *)
Variable GITHUB_APP_NAME : string.
Variable GITHUB_APP_INSTALLATION_LINK : string.
Variable AUTO_CHANGESET_AND_RELEASE_NOTES_TOOL_NAME : string.
Variable AUTO_CHANGESET_AND_RELEASE_NOTES_TOOL_DOCS : string.

(** The closing sentence the three messages share. *)
Definition moreInformation : string :=
  "For more information, visit ["
  ++ AUTO_CHANGESET_AND_RELEASE_NOTES_TOOL_NAME ++ "]("
  ++ AUTO_CHANGESET_AND_RELEASE_NOTES_TOOL_DOCS ++ ").".

Definition GitHubAppSuspendedOrNotInstalledError : ErrorObject :=
  {| name := "GitHubAppSuspendedOrNotInstalledError";
     message :=
       "[" ++ GITHUB_APP_NAME ++ "](" ++ GITHUB_APP_INSTALLATION_LINK
       ++ ") is suspended or not installed in your forked repository. "
       ++ "Please ensure the app is installed and has the necessary permissions."
       ++ LF ++ LF ++ moreInformation;
     shouldResultInPRComment := true |}.

Definition MissingGitHubAppDomainError : ErrorObject :=
  {| name := "MissingGitHubAppDomainError";
     message :=
       "The GITHUB_APP_URL_DOMAIN constant is not set." ++ LF
       ++ "    Please ensure the domain url for the **Github Changelog Bot** is configured in your repository as a Github Secret."
       ++ LF ++ LF ++ "    " ++ moreInformation;
     shouldResultInPRComment := false |}.

Definition MissingChangelogBridgeApiKeyError : ErrorObject :=
  {| name := "MissingChangelogBridgeApiKeyError";
     message :=
       "The CHANGELOG_PR_BRIDGE_API_KEY constant is not set." ++ LF
       ++ "      Please ensure the key is configured in your repository as a Github Secret."
       ++ LF ++ LF ++ "      " ++ moreInformation;
     shouldResultInPRComment := false |}.

End Classes.

End CustomErrors.

(** [getErrorComment]: the comment, or [None] for [null]. *)
Definition getErrorComment (errorInput : CustomErrors.ErrorObject)
  : option string :=
  if CustomErrors.shouldResultInPRComment errorInput then
    Some (CustomErrors.name errorInput ++ ": "
          ++ CustomErrors.message errorInput)
  else None.

(** [octokit.rest.issues.createComment] with its [owner], [repo],
    [issue_number] and [body]. *)
Record OctokitComments (W : Type) : Type := mkOctokitComments {
  createComment : string -> string -> Z -> string -> Async W unit
}.
Arguments createComment {W} _.

Section Comments.
Context {W : Type}.

(** The last argument is the [getErrorComment] the caller passes. *)
Definition postPRComment (octokit : OctokitComments W)
  (owner repo : string) (prNumber : Z)
  (errorInput : CustomErrors.ErrorObject)
  (getErrorComment : CustomErrors.ErrorObject -> option string)
  : Async W unit :=
  let comment := getErrorComment errorInput in
  match comment with
  | Some body =>
      if truthy comment then
        tryCatch (createComment octokit owner repo prNumber body)
                 (fun _ => resolve tt)
      else resolve tt
  | None => resolve tt
  end.

End Comments.

(** *** The changeset file *)

Inductive FileError : Type :=
| GetGithubContentError
| CreateChangesetFileError
| UpdateChangesetFileError.

(** The two [octokit.rest.repos] operations the file utility calls.
    [getContent] takes [owner], [repo], [path] and [ref], and is modelled by
    what the utility reads of its response, [response.data.sha], which is
    [undefined] when the response has none.  [createOrUpdateFileContents]
    takes [owner], [repo], [path], [message], [content], [sha] and
    [branch]. *)
Record OctokitRepos (W : Type) : Type := mkOctokitRepos {
  getContent : string -> string -> string -> string -> Async W (option string);
  createOrUpdateFileContents :
    string -> string -> string -> string -> string -> option string ->
    string -> Async W unit
}.
Arguments getContent {W} _.
Arguments createOrUpdateFileContents {W} _.

Section ChangesetFile.
Context {W : Type}.

(** The second [try] block, entered with the [sha] the first one left. *)
Definition writeChangesetFile (octokit : OctokitRepos W)
  (owner repo path content message branchRef : string)
  (sha : option string) : W -> outcome FileError unit * W :=
  fun w =>
    match createOrUpdateFileContents octokit owner repo path message
            content sha branchRef w with
    | (Return _, w') => (Completes tt, w')
    | (Throw _, w') =>
        (Throws (if negb (truthy sha) then CreateChangesetFileError
                 else UpdateChangesetFileError), w')
    end.

Definition createOrUpdateFile (octokit : OctokitRepos W)
  (owner repo path content message branchRef : string)
  : W -> outcome FileError unit * W :=
  fun w =>
    match getContent octokit owner repo path branchRef w with
    | (Return sha, w') =>
        writeChangesetFile octokit owner repo path content message
          branchRef sha w'
    | (Throw e, w') =>
        match statusOf e with
        | Some 404 =>
            writeChangesetFile octokit owner repo path content message
              branchRef None w'
        | _ => (Throws GetGithubContentError, w')
        end
    end.

End ChangesetFile.

(** ** Inputs for concrete runs *)

(** An [updateLabel] that touches nothing and only records the label and the
    flag of each call, over a state that is the list of the calls made. *)
Definition recordingUpdateLabel : UpdateLabel (W := list (string * bool)) :=
  fun _ _ _ _ label addLabel calls =>
    (Return tt, (calls ++ [(label, addLabel)])%list).

(** An octokit whose operations do nothing, for runs that never reach it. *)
Definition idleOctokit {W : Type} : Octokit W :=
  {| listLabelsOnIssue := fun _ _ _ => resolve [];
     addLabels := fun _ _ _ _ => resolve tt;
     removeLabel := fun _ _ _ _ => resolve tt |}.

(** An entry map with a category next to [skip]. *)
Definition skipWithFeat : gmap string string :=
  <["skip" := ""]> {["feat" := "- Add dark mode"]}.

(** A hosting service that does not answer. *)
Definition offline : FakeHost.Host := FakeHost.mkHost false [].

(** Every code unit of [s] is white space. *)
Fixpoint allWhiteSpace (s : string) : bool :=
  match s with
  | EmptyString => true
  | String c s' => isWhiteSpace c && allWhiteSpace s'
  end.

(** [s] does not start with white space. *)
Definition startsClean (s : string) : bool :=
  match s with
  | EmptyString => true
  | String c _ => negb (isWhiteSpace c)
  end.

(** A repository API that answers every lookup with [lookup] and every
    write with [write], over a state that counts the requests made. *)
Definition scriptedRepos (lookup : completion (option string))
  (write : completion unit) : OctokitRepos nat :=
  {| getContent := fun _ _ _ _ requests => (lookup, S requests);
     createOrUpdateFileContents := fun _ _ _ _ _ _ _ requests =>
       (write, S requests) |}.

(** A comment API that answers with [answer], over a state that lists the
    bodies it was asked to post. *)
Definition scriptedComments (answer : completion unit)
  : OctokitComments (list string) :=
  {| createComment := fun _ _ _ body posted =>
       (answer, (posted ++ [body])%list) |}.

(** The base repository of a pull request, for concrete runs. *)
Definition samplePrData : PrData.t :=
  PrData.mk "opensearch-project" "OpenSearch" 7 "contributor" "OpenSearch".

Import EntryGrammar.

(** * Properties *)

(** ** Strings *)

Lemma lowerUnit_idempotent (c : ascii) : lowerUnit (lowerUnit c) = lowerUnit c.
Proof. destruct c as [[] [] [] [] [] [] [] []]; reflexivity. Qed.

(** Lower-casing yields a lower-case string, fixed by lower-casing. *)
Lemma toLowerCase_idempotent (s : string) :
  toLowerCase (toLowerCase s) = toLowerCase s.
Proof.
  induction s as [|c s IH]; [reflexivity|].
  simpl. by rewrite lowerUnit_idempotent, IH.
Qed.

Lemma toLowerCase_length (s : string) :
  String.length (toLowerCase s) = String.length s.
Proof. induction s as [|c s IH]; simpl; [reflexivity|by rewrite IH]. Qed.

(** ** The keys of an entry map *)

Lemma includes_true (l : list string) (x : string) :
  includes l x = true ↔ x ∈ l.
Proof. unfold includes. apply bool_decide_eq_true. Qed.

Lemma includes_false (l : list string) (x : string) :
  includes l x = false ↔ x ∉ l.
Proof. unfold includes. apply bool_decide_eq_false. Qed.

Lemma Object_keys_elem (m : gmap string string) (k : string) :
  k ∈ Object_keys m ↔ k ∈ dom m.
Proof.
  unfold Object_keys. rewrite elem_of_dom, list_elem_of_fmap. split.
  - intros [[k' v] [-> Hin]]. apply elem_of_map_to_list in Hin. by exists v.
  - intros [v Hv]. exists (k, v). split; [done|]. by apply elem_of_map_to_list.
Qed.

Lemma Object_keys_length (m : gmap string string) :
  length (Object_keys m) = size (dom m).
Proof.
  unfold Object_keys. by rewrite length_fmap, length_map_to_list, size_dom.
Qed.

(** With [k] among the keys, there are at most one key exactly when [k] is
    the only one, and more than one exactly when another key exists. *)
Lemma sole_key_size (X : gset string) (k : string) :
  k ∈ X → (size X ≤ 1)%nat ↔ X = {[ k ]}.
Proof.
  intros Hk. split.
  - intros Hle. symmetry. apply set_subseteq_size_eq.
    + by apply singleton_subseteq_l.
    + by rewrite size_singleton.
  - intros ->. by rewrite size_singleton.
Qed.

Lemma other_key_size (X : gset string) (k : string) :
  k ∈ X → (1 < size X)%nat ↔ ∃ k', k' ≠ k ∧ k' ∈ X.
Proof.
  intros Hk. split.
  - intros Hlt. destruct (decide (X = {[ k ]})) as [->|Hne].
    + rewrite size_singleton in Hlt. lia.
    + destruct (set_choose_L (X ∖ {[ k ]})) as [k' Hk'].
      * intros Hempty. apply Hne. apply set_eq. intros x.
        rewrite elem_of_singleton. split; [|by intros ->].
        intros Hx. destruct (decide (x = k)) as [|Hxk]; [done|].
        assert (x ∈ X ∖ {[ k ]}) as Hin by set_solver.
        rewrite Hempty in Hin. set_solver.
      * apply elem_of_difference in Hk' as [Hin Hnot].
        exists k'. split; [|done]. intros ->. apply Hnot.
        by apply elem_of_singleton.
  - intros (k' & Hne & Hk'). apply Nat.lt_nge. intros Hle.
    apply (sole_key_size X k Hk) in Hle. subst X.
    by apply elem_of_singleton in Hk'.
Qed.

Lemma key_count_gt_1 (m : gmap string string) :
  (Z.of_nat (length (Object_keys m)) >? 1) = true ↔ (1 < size (dom m))%nat.
Proof. rewrite Object_keys_length, Z.gtb_lt. lia. Qed.

(** ** [handleSkipOption] by cases *)

Section HandleSkipOptionCases.
Context {W : Type}.
Variable SKIP_LABEL : string.
Variables (octokit : Octokit W) (owner repo : string) (prNumber : Z).
Variable updateLabel : UpdateLabel (W := W).

Lemma handleSkipOption_conflict (m : gmap string string) (w : W) :
  "skip" ∈ dom m → (∃ k, k ≠ "skip" ∧ k ∈ dom m) →
  handleSkipOption SKIP_LABEL octokit (Some m) owner repo prNumber
    updateLabel w = (Throw CategoryWithSkipOptionError, w).
Proof.
  intros Hskip Hother. unfold handleSkipOption.
  apply (other_key_size _ _ Hskip), key_count_gt_1 in Hother.
  apply Object_keys_elem, includes_true in Hskip.
  by rewrite Hskip, Hother.
Qed.

Lemma handleSkipOption_sole (m : gmap string string) :
  dom m = {[ "skip" ]} →
  handleSkipOption SKIP_LABEL octokit (Some m) owner repo prNumber
    updateLabel
  = (_ <~ updateLabel octokit owner repo prNumber SKIP_LABEL true ;;
     resolve true).
Proof.
  intros Hdom. unfold handleSkipOption.
  assert ("skip" ∈ dom m) as Hskip by (rewrite Hdom; set_solver).
  apply Object_keys_elem, includes_true in Hskip as ->.
  destruct (Z.of_nat (length (Object_keys m)) >? 1) eqn:Hc; [|done].
  apply key_count_gt_1 in Hc. rewrite Hdom, size_singleton in Hc. lia.
Qed.

Lemma handleSkipOption_absent (m : gmap string string) :
  "skip" ∉ dom m →
  handleSkipOption SKIP_LABEL octokit (Some m) owner repo prNumber
    updateLabel
  = (_ <~ updateLabel octokit owner repo prNumber SKIP_LABEL false ;;
     resolve false).
Proof.
  intros Hskip. unfold handleSkipOption.
  rewrite <- Object_keys_elem in Hskip.
  by apply includes_false in Hskip as ->.
Qed.

(** The three cases cover every entry map. *)
Lemma entryMap_cases (m : gmap string string) :
  "skip" ∉ dom m ∨ dom m = {[ "skip" ]}
  ∨ ("skip" ∈ dom m ∧ ∃ k, k ≠ "skip" ∧ k ∈ dom m).
Proof.
  destruct (decide ("skip" ∈ dom m)) as [Hin|]; [|by left].
  right. destruct (decide (size (dom m) ≤ 1)%nat) as [Hle|Hgt].
  - left. by apply (sole_key_size _ _ Hin).
  - right. split; [done|]. apply other_key_size; [done|lia].
Qed.

End HandleSkipOptionCases.

(** ** The skip policy *)

Lemma skipWithFeat_has_skip : "skip" ∈ dom skipWithFeat.
Proof. apply elem_of_dom. by exists "". Qed.

Lemma skipWithFeat_has_other : ∃ k, k ≠ "skip" ∧ k ∈ dom skipWithFeat.
Proof.
  exists "feat". split; [discriminate|].
  apply elem_of_dom. by exists "- Add dark mode".
Qed.

(** C10: [isSkipEntry entryMap] is [true] exactly when [entryMap] is an
    object (truthy) that has ["skip"] among its keys.  Other category keys
    next to ["skip"] do not change the answer: the function has no
    exclusivity check and, being a total boolean function, raises no error,
    whereas [handleSkipOption] throws on such a map. *)
Theorem isSkipEntry_iff_skip_key (entryMap : option (gmap string string)) :
  (isSkipEntry entryMap = true ↔ ∃ m, entryMap = Some m ∧ "skip" ∈ dom m)
  ∧ (∀ m, entryMap = Some m → "skip" ∈ dom m →
       (∃ k, k ≠ "skip" ∧ k ∈ dom m) →
       isSkipEntry entryMap = true
       ∧ ∀ W SKIP_LABEL (octokit : Octokit W) owner repo prNumber
           updateLabel w,
           fst (handleSkipOption SKIP_LABEL octokit entryMap owner repo
                  prNumber updateLabel w)
           = Throw CategoryWithSkipOptionError).
Proof.
  assert (∀ m, "skip" ∈ dom m → isSkipEntry (Some m) = true) as Hyes.
  { intros m Hin. unfold isSkipEntry.
    by apply Object_keys_elem, includes_true in Hin as ->. }
  split; [split|].
  - destruct entryMap as [m|]; [|discriminate]. intros Htrue.
    exists m. split; [done|]. unfold isSkipEntry in Htrue.
    destruct (includes (Object_keys m) "skip") eqn:Hinc; [|discriminate].
    by apply includes_true, Object_keys_elem in Hinc.
  - intros (m & -> & Hin). by apply Hyes.
  - intros m -> Hin Hother. split; [by apply Hyes|]. intros.
    by rewrite handleSkipOption_conflict.
Qed.

Lemma isSkipEntry_iff_skip_key_witness :
  isSkipEntry (Some skipWithFeat) = true
  ∧ fst (handleSkipOption "skip-changelog" FakeHost.octokit
           (Some skipWithFeat) "opensearch-project" "OpenSearch" 7
           updatePRLabel (FakeHost.mkHost true []))
    = Throw CategoryWithSkipOptionError.
Proof.
  destruct (proj2 (isSkipEntry_iff_skip_key (Some skipWithFeat)) skipWithFeat
              eq_refl skipWithFeat_has_skip skipWithFeat_has_other)
    as [Hskip Hthrows].
  split; [exact Hskip|apply Hthrows].
Defined.

(** C9: on an entry map that has ["skip"] together with another key,
    [handleSkipOption] throws [CategoryWithSkipOptionError] and leaves the
    state of the hosting service as it found it, whatever the [updateLabel]
    collaborator would do: the collaborator is not called, so no label is
    added or removed on this path. *)
Theorem handleSkipOption_conflict_leaves_state {W : Type}
  (SKIP_LABEL : string) (octokit : Octokit W) (owner repo : string)
  (prNumber : Z) (updateLabel : UpdateLabel) (m : gmap string string)
  (w : W) :
  "skip" ∈ dom m → (∃ k, k ≠ "skip" ∧ k ∈ dom m) →
  handleSkipOption SKIP_LABEL octokit (Some m) owner repo prNumber
    updateLabel w
  = (Throw CategoryWithSkipOptionError, w).
Proof. apply handleSkipOption_conflict. Qed.

Lemma handleSkipOption_conflict_leaves_state_witness :
  handleSkipOption "skip-changelog" idleOctokit
    (Some skipWithFeat) "opensearch-project" "OpenSearch" 7
    recordingUpdateLabel []
  = (Throw CategoryWithSkipOptionError, [])
  ∧ handleSkipOption "skip-changelog" FakeHost.octokit
      (Some skipWithFeat) "opensearch-project" "OpenSearch" 7
      updatePRLabel (FakeHost.mkHost true [mkLabel "skip-changelog"])
    = (Throw CategoryWithSkipOptionError,
       FakeHost.mkHost true [mkLabel "skip-changelog"]).
Proof.
  split.
  - apply handleSkipOption_conflict_leaves_state.
    + exact skipWithFeat_has_skip.
    + exact skipWithFeat_has_other.
  - apply handleSkipOption_conflict_leaves_state.
    + exact skipWithFeat_has_skip.
    + exact skipWithFeat_has_other.
Defined.

Lemma featOnly_has_no_skip :
  "skip" ∉ dom ({["feat" := "- Add dark mode"]} : gmap string string).
Proof.
  rewrite dom_singleton_L. intros Hin.
  apply elem_of_singleton in Hin. discriminate Hin.
Qed.

(** C2, as stated, fails: with ["skip"] as the only key the function does
    not return [true], and with no ["skip"] key it does not return [false],
    when the label request fails; [updatePRLabel] then throws
    [UpdatePRLabelError], which [handleSkipOption] lets through. *)
Lemma handleSkipOption_label_failure :
  dom ({["skip" := ""]} : gmap string string) = {[ "skip" ]}
  ∧ handleSkipOption "skip-changelog" FakeHost.octokit
      (Some {["skip" := ""]}) "opensearch-project" "OpenSearch" 7
      updatePRLabel offline
    = (Throw UpdatePRLabelError, offline)
  ∧ ("skip" ∉ dom ({["feat" := "- Add dark mode"]} : gmap string string))
  ∧ handleSkipOption "skip-changelog" FakeHost.octokit
      (Some {["feat" := "- Add dark mode"]}) "opensearch-project"
      "OpenSearch" 7 updatePRLabel offline
    = (Throw UpdatePRLabelError, offline).
Proof.
  split; [apply dom_singleton_L|]. split; [reflexivity|].
  split; [exact featOnly_has_no_skip|reflexivity].
Qed.

(** C2 (amended): for every entry map, [handleSkipOption] returns [true]
    exactly when ["skip"] is the only key and the [updateLabel] call that
    asserts the label completes; with ["skip"] and another key it throws
    [CategoryWithSkipOptionError]; without ["skip"] it returns [false] when
    the [updateLabel] call that withdraws the label completes.  In the two
    cases that call [updateLabel], an error it throws is thrown on, and the
    state is the one the call leaves. *)
Theorem handleSkipOption_outcomes {W : Type}
  (SKIP_LABEL : string) (octokit : Octokit W) (owner repo : string)
  (prNumber : Z) (updateLabel : UpdateLabel) (m : gmap string string)
  (w : W) :
  (fst (handleSkipOption SKIP_LABEL octokit (Some m) owner repo prNumber
          updateLabel w) = Return true
   ↔ dom m = {[ "skip" ]}
     ∧ fst (updateLabel octokit owner repo prNumber SKIP_LABEL true w)
       = Return tt)
  ∧ ("skip" ∈ dom m → (∃ k, k ≠ "skip" ∧ k ∈ dom m) →
     handleSkipOption SKIP_LABEL octokit (Some m) owner repo prNumber
       updateLabel w = (Throw CategoryWithSkipOptionError, w))
  ∧ (dom m = {[ "skip" ]} →
     ∀ r w', updateLabel octokit owner repo prNumber SKIP_LABEL true w
             = (r, w') →
     handleSkipOption SKIP_LABEL octokit (Some m) owner repo prNumber
       updateLabel w
     = (match r with Return _ => Return true | Throw e => Throw e end, w'))
  ∧ ("skip" ∉ dom m →
     ∀ r w', updateLabel octokit owner repo prNumber SKIP_LABEL false w
             = (r, w') →
     handleSkipOption SKIP_LABEL octokit (Some m) owner repo prNumber
       updateLabel w
     = (match r with Return _ => Return false | Throw e => Throw e end, w')).
Proof.
  split; [|split; [|split]].
  - destruct (entryMap_cases m) as [Habs|[Hsole|[Hin Hother]]].
    + rewrite handleSkipOption_absent by done. unfold await, resolve.
      split.
      * destruct (updateLabel _ _ _ _ _ false w) as [[[]|e] w'];
          discriminate.
      * intros [Hdom _]. exfalso. apply Habs. rewrite Hdom.
        by apply elem_of_singleton.
    + rewrite handleSkipOption_sole by done. unfold await, resolve.
      destruct (updateLabel _ _ _ _ _ true w) as [[[]|e] w']; simpl.
      * by split.
      * split; [discriminate|]. intros [_ H]. discriminate H.
    + rewrite handleSkipOption_conflict by done. simpl.
      split; [discriminate|]. intros [Hdom _]. exfalso.
      destruct Hother as (k & Hne & Hk). rewrite Hdom in Hk.
      by apply elem_of_singleton in Hk.
  - apply handleSkipOption_conflict.
  - intros Hsole r w' Hupd. rewrite handleSkipOption_sole by done.
    unfold await, resolve. rewrite Hupd. by destruct r.
  - intros Habs r w' Hupd. rewrite handleSkipOption_absent by done.
    unfold await, resolve. rewrite Hupd. by destruct r.
Qed.

Lemma handleSkipOption_outcomes_witness :
  handleSkipOption "skip-changelog" FakeHost.octokit
    (Some skipWithFeat) "opensearch-project" "OpenSearch" 7
    updatePRLabel (FakeHost.mkHost true [])
  = (Throw CategoryWithSkipOptionError, FakeHost.mkHost true [])
  ∧ handleSkipOption "skip-changelog" FakeHost.octokit
      (Some {["feat" := "- Add dark mode"]}) "opensearch-project"
      "OpenSearch" 7 updatePRLabel
      (FakeHost.mkHost true [mkLabel "skip-changelog"])
    = (Return false, FakeHost.mkHost true [])
  ∧ handleSkipOption "skip-changelog" FakeHost.octokit
      (Some {["skip" := ""]}) "opensearch-project" "OpenSearch" 7
      updatePRLabel (FakeHost.mkHost true [])
    = (Return true, FakeHost.mkHost true [mkLabel "skip-changelog"]).
Proof.
  split; [|split].
  - apply (proj1 (proj2 (handleSkipOption_outcomes "skip-changelog"
             FakeHost.octokit "opensearch-project" "OpenSearch" 7
             updatePRLabel skipWithFeat (FakeHost.mkHost true [])))).
    + exact skipWithFeat_has_skip.
    + exact skipWithFeat_has_other.
  - apply (proj2 (proj2 (proj2 (handleSkipOption_outcomes "skip-changelog"
             FakeHost.octokit "opensearch-project" "OpenSearch" 7
             updatePRLabel {["feat" := "- Add dark mode"]}
             (FakeHost.mkHost true [mkLabel "skip-changelog"]))))
             (featOnly_has_no_skip) (Return tt) (FakeHost.mkHost true [])).
    reflexivity.
  - apply (proj1 (proj2 (proj2 (handleSkipOption_outcomes "skip-changelog"
             FakeHost.octokit "opensearch-project" "OpenSearch" 7
             updatePRLabel {["skip" := ""]} (FakeHost.mkHost true []))))
             (dom_singleton_L _ _) (Return tt)
             (FakeHost.mkHost true [mkLabel "skip-changelog"])).
    reflexivity.
Defined.

(** ** [isValidChangelogEntry] by cases *)

Lemma strictEq_true (v : option string) (s : string) :
  strictEq v s = true ↔ v = Some s.
Proof.
  destruct v as [s'|]; simpl; [|by split].
  rewrite String.eqb_eq. split; [by intros ->|by intros [= ->]].
Qed.

Lemma trimmedLogOf_Some (d : string) : trimmedLogOf (Some d) = trim d.
Proof. by destruct d. Qed.

Lemma truthy_Some (d : string) : d ≠ "" → truthy (Some d) = true.
Proof. intros Hd. simpl. by apply negb_true_iff, String.eqb_neq. Qed.

Section ValidatorCases.
Variable MAX_ENTRY_LENGTH : Z.
Variable CHANGELOG_ENTRY_PREFIXES : list string.
Variable ENTRY_FORMATTING_PATTERN_REGEX : string -> MatchResult.

Local Abbreviation validate :=
  (isValidChangelogEntry MAX_ENTRY_LENGTH CHANGELOG_ENTRY_PREFIXES
     ENTRY_FORMATTING_PATTERN_REGEX).

Lemma validate_no_match (line : string) (n : Z) (mode : string) :
  ENTRY_FORMATTING_PATTERN_REGEX line = None →
  validate line n mode = Throw TypeError.
Proof. intros H. unfold isValidChangelogEntry. by rewrite H. Qed.

(** Manual mode on a line with the marker and a captured prefix. *)
Lemma validate_manual (line : string) (n : Z)
  (groups : list (option string)) (p : string) :
  ENTRY_FORMATTING_PATTERN_REGEX line = Some groups →
  group groups 1 = Some "-" → group groups 2 = Some p →
  validate line n "manual"
  = if String.eqb (toLowerCase p) "skip"
    then Return (mkValidatedEntry p (trimmedLogOf (group groups 3)))
    else Throw (InvalidPrefixForManualChangesetCreationError p).
Proof.
  intros Hm Hmarker Hp. unfold isValidChangelogEntry, manualBranch.
  rewrite Hm, Hmarker, Hp. simpl.
  by destruct (String.eqb (toLowerCase p) "skip").
Qed.

(** Normal mode on a line that passes every check. *)
Lemma validate_normal_success (line : string) (n : Z) (mode : string)
  (groups : list (option string)) (p : string) :
  mode ≠ "manual" →
  ENTRY_FORMATTING_PATTERN_REGEX line = Some groups →
  group groups 1 = Some "-" → group groups 2 = Some p →
  toLowerCase p ∈ CHANGELOG_ENTRY_PREFIXES →
  (p = "skip" → n <= 1) →
  (p ≠ "skip" → truthy (group groups 3) = true) →
  jsLength (trimmedLogOf (group groups 3)) <= MAX_ENTRY_LENGTH →
  validate line n mode
  = Return (mkValidatedEntry p (trimmedLogOf (group groups 3))).
Proof.
  intros Hmode Hm Hmarker Hp Hin Hskip Hlog Hlen.
  unfold isValidChangelogEntry, normalBranch.
  apply String.eqb_neq in Hmode. rewrite Hm, Hmode, Hmarker, Hp. simpl.
  apply includes_true in Hin. rewrite Hin. simpl.
  destruct (String.eqb p "skip") eqn:Hp_skip; simpl.
  - apply String.eqb_eq in Hp_skip.
    destruct (n >? 1) eqn:Hn; [apply Z.gtb_lt in Hn; specialize (Hskip Hp_skip); lia|].
    destruct (_ >? MAX_ENTRY_LENGTH) eqn:Hgt; [apply Z.gtb_lt in Hgt; lia|].
    done.
  - apply String.eqb_neq in Hp_skip. rewrite (Hlog Hp_skip). simpl.
    destruct (_ >? MAX_ENTRY_LENGTH) eqn:Hgt; [apply Z.gtb_lt in Hgt; lia|].
    done.
Qed.

(** Normal mode on a line whose trimmed description is too long. *)
Lemma validate_normal_too_long (line : string) (n : Z) (mode : string)
  (groups : list (option string)) (p d : string) :
  mode ≠ "manual" →
  ENTRY_FORMATTING_PATTERN_REGEX line = Some groups →
  group groups 1 = Some "-" → group groups 2 = Some p →
  group groups 3 = Some d →
  toLowerCase p ∈ CHANGELOG_ENTRY_PREFIXES →
  p ≠ "skip" → d ≠ "" →
  MAX_ENTRY_LENGTH < jsLength (trim d) →
  validate line n mode = Throw (EntryTooLongError (jsLength d)).
Proof.
  intros Hmode Hm Hmarker Hp Hd Hin Hskip Hne Hlen.
  unfold isValidChangelogEntry, normalBranch.
  apply String.eqb_neq in Hmode. rewrite Hm, Hmode, Hmarker, Hp, Hd. simpl.
  apply includes_true in Hin. rewrite Hin. simpl.
  apply String.eqb_neq in Hskip. rewrite Hskip.
  apply String.eqb_neq in Hne. rewrite Hne. simpl.
  destruct (_ >? MAX_ENTRY_LENGTH) eqn:Hgt; [done|].
  rewrite Z.gtb_ltb in Hgt. apply Z.ltb_ge in Hgt. lia.
Qed.

(** What a successful validation says about the line. *)
Lemma validate_success_inv (line : string) (n : Z) (mode : string)
  (r : ValidatedEntry) :
  validate line n mode = Return r →
  ∃ groups p,
    ENTRY_FORMATTING_PATTERN_REGEX line = Some groups
    ∧ group groups 1 = Some "-" ∧ group groups 2 = Some p
    ∧ r = mkValidatedEntry p (trimmedLogOf (group groups 3))
    ∧ (mode = "manual" → toLowerCase p = "skip")
    ∧ (mode ≠ "manual" → toLowerCase p ∈ CHANGELOG_ENTRY_PREFIXES).
Proof.
  unfold isValidChangelogEntry.
  destruct (ENTRY_FORMATTING_PATTERN_REGEX line) as [groups|];
    [|discriminate].
  intros Hret. exists groups.
  destruct (group groups 2) as [p|] eqn:Hp.
  2:{ destruct (String.eqb mode "manual");
      unfold manualBranch, normalBranch in Hret;
      destruct (strictEq (group groups 1) "-"); discriminate. }
  exists p.
  assert (group groups 1 = Some "-") as Hmarker.
  { apply strictEq_true.
    destruct (strictEq (group groups 1) "-") eqn:E; [done|].
    unfold manualBranch, normalBranch in Hret. rewrite E in Hret.
    destruct (String.eqb mode "manual"); discriminate. }
  apply strictEq_true in Hmarker as Hs.
  unfold manualBranch, normalBranch in Hret. rewrite Hs in Hret.
  simpl in Hret.
  destruct (String.eqb mode "manual") eqn:Hmode.
  - apply String.eqb_eq in Hmode.
    destruct (String.eqb (toLowerCase p) "skip") eqn:Hlow;
      [|discriminate].
    apply String.eqb_eq in Hlow. simpl in Hret. injection Hret as <-.
    repeat split; try done.
  - apply String.eqb_neq in Hmode.
    destruct (includes CHANGELOG_ENTRY_PREFIXES (toLowerCase p)) eqn:Hin;
      [|discriminate].
    apply includes_true in Hin. simpl in Hret.
    destruct (String.eqb p "skip" && (n >? 1)); [discriminate|].
    destruct (negb (String.eqb p "skip") && negb (truthy (group groups 3)));
      [discriminate|].
    destruct (_ >? MAX_ENTRY_LENGTH).
    { destruct (group groups 3); discriminate. }
    injection Hret as <-. repeat split; try done.
Qed.

End ValidatorCases.

(** ** The scenarios of the specification *)

Example scenario_B :
  isValidChangelogEntry scenarioMaxLength scenarioPrefixes entryPattern
    "- skip: " 1 "automatic"
  = Return (mkValidatedEntry "skip" "").
Proof. reflexivity. Qed.

Example scenario_C :
  isValidChangelogEntry scenarioMaxLength scenarioPrefixes entryPattern
    "- skip: ignored text" 2 "automatic"
  = Throw InvalidAdditionalPrefixWithSkipEntryOptionError.
Proof. reflexivity. Qed.

Example scenario_D :
  isValidChangelogEntry scenarioMaxLength scenarioPrefixes entryPattern
    "feat: add dark mode" 1 "automatic"
  = Throw ChangelogEntryMissingHyphenError.
Proof. reflexivity. Qed.

Example scenario_E :
  isValidChangelogEntry scenarioMaxLength scenarioPrefixes entryPattern
    "- bogus: text" 1 "automatic"
  = Throw (InvalidPrefixError "bogus").
Proof. reflexivity. Qed.

(** ** Entry validation *)

(** A prefix listed in a taxonomy of lower-case strings passes the
    membership test of the code, which lower-cases the prefix first. *)
Lemma taxonomy_member_lower (prefixes : list string) (p : string) :
  Forall (fun x => toLowerCase x = x) prefixes →
  p ∈ prefixes → toLowerCase p ∈ prefixes.
Proof.
  intros Hlow Hin. rewrite Forall_forall in Hlow.
  by rewrite (Hlow p Hin).
Qed.

Lemma scenarioPrefixes_lower :
  Forall (fun x => toLowerCase x = x) scenarioPrefixes.
Proof. repeat constructor. Qed.

(** C1: the code does not blank the description of a skip entry.  Whenever
    validation succeeds, in either mode, on a line whose description group
    holds [d], the [trimmedLog] it returns is [trim d], whatever the
    prefix; on ["- skip: ignored text"] that is ["ignored text"]. *)
Theorem validated_log_is_trimmed_description
  (MAX_ENTRY_LENGTH : Z) (CHANGELOG_ENTRY_PREFIXES : list string)
  (ENTRY_FORMATTING_PATTERN_REGEX : string -> MatchResult)
  (line : string) (n : Z) (mode : string)
  (groups : list (option string)) (d : string) (r : ValidatedEntry) :
  ENTRY_FORMATTING_PATTERN_REGEX line = Some groups →
  group groups 3 = Some d →
  isValidChangelogEntry MAX_ENTRY_LENGTH CHANGELOG_ENTRY_PREFIXES
    ENTRY_FORMATTING_PATTERN_REGEX line n mode = Return r →
  trimmedLog r = trim d.
Proof.
  intros Hm Hd Hret.
  apply validate_success_inv in Hret
    as (groups' & p & Hm' & _ & _ & -> & _).
  rewrite Hm in Hm'. injection Hm' as <-.
  rewrite Hd. simpl. apply trimmedLogOf_Some.
Qed.

Lemma validated_log_is_trimmed_description_witness :
  isValidChangelogEntry scenarioMaxLength scenarioPrefixes entryPattern
    "- skip: ignored text" 1 "manual"
  = Return (mkValidatedEntry "skip" "ignored text")
  ∧ isValidChangelogEntry scenarioMaxLength scenarioPrefixes entryPattern
      "- skip: ignored text" 1 "automatic"
    = Return (mkValidatedEntry "skip" "ignored text")
  ∧ trimmedLog (mkValidatedEntry "skip" "ignored text") = "ignored text".
Proof.
  split; [reflexivity|]. split; [reflexivity|].
  apply (validated_log_is_trimmed_description scenarioMaxLength
           scenarioPrefixes entryPattern "- skip: ignored text" 1 "manual"
           [Some "- skip: ignored text"; Some "-"; Some "skip";
            Some "ignored text"] "ignored text");
    reflexivity.
Defined.

(** C3: in manual mode validation succeeds only on a line whose captured
    prefix lower-cases to ["skip"]; on every line with the ["-"] marker and
    a prefix that does not, a member of the taxonomy or not, it throws
    [InvalidPrefixForManualChangesetCreationError] with that prefix. *)
Theorem manual_mode_accepts_only_skip
  (MAX_ENTRY_LENGTH : Z) (CHANGELOG_ENTRY_PREFIXES : list string)
  (ENTRY_FORMATTING_PATTERN_REGEX : string -> MatchResult)
  (line : string) (n : Z) :
  (∀ r, isValidChangelogEntry MAX_ENTRY_LENGTH CHANGELOG_ENTRY_PREFIXES
          ENTRY_FORMATTING_PATTERN_REGEX line n "manual" = Return r →
        ∃ groups p,
          ENTRY_FORMATTING_PATTERN_REGEX line = Some groups
          ∧ group groups 2 = Some p ∧ toLowerCase p = "skip")
  ∧ (∀ groups p,
       ENTRY_FORMATTING_PATTERN_REGEX line = Some groups →
       group groups 1 = Some "-" → group groups 2 = Some p →
       toLowerCase p ≠ "skip" →
       isValidChangelogEntry MAX_ENTRY_LENGTH CHANGELOG_ENTRY_PREFIXES
         ENTRY_FORMATTING_PATTERN_REGEX line n "manual"
       = Throw (InvalidPrefixForManualChangesetCreationError p)).
Proof.
  split.
  - intros r Hret.
    apply validate_success_inv in Hret
      as (groups & p & Hm & _ & Hp & _ & Hskip & _).
    exists groups, p. by auto.
  - intros groups p Hm Hmarker Hp Hne.
    rewrite (validate_manual _ _ _ _ _ groups p Hm Hmarker Hp).
    by apply String.eqb_neq in Hne as ->.
Qed.

Lemma manual_mode_accepts_only_skip_witness :
  "feat" ∈ scenarioPrefixes
  ∧ isValidChangelogEntry scenarioMaxLength scenarioPrefixes entryPattern
      "- feat: add dark mode" 1 "manual"
    = Throw (InvalidPrefixForManualChangesetCreationError "feat").
Proof.
  split; [by constructor|].
  apply (proj2 (manual_mode_accepts_only_skip scenarioMaxLength
                  scenarioPrefixes entryPattern "- feat: add dark mode" 1)
           [Some "- feat: add dark mode"; Some "-"; Some "feat";
            Some "add dark mode"] "feat");
    [reflexivity|reflexivity|reflexivity|discriminate].
Defined.

(** C4: a line that the pattern does not match makes
    [isValidChangelogEntry] fail with the engine's [TypeError], raised by
    destructuring the absent match, and with none of the typed validation
    errors; the grammar has such lines, ["add dark mode"] for one. *)
Theorem unmatched_line_raises_TypeError :
  (∀ (MAX_ENTRY_LENGTH : Z) (CHANGELOG_ENTRY_PREFIXES : list string)
     (ENTRY_FORMATTING_PATTERN_REGEX : string -> MatchResult)
     (line : string) (n : Z) (mode : string),
     ENTRY_FORMATTING_PATTERN_REGEX line = None →
     isValidChangelogEntry MAX_ENTRY_LENGTH CHANGELOG_ENTRY_PREFIXES
       ENTRY_FORMATTING_PATTERN_REGEX line n mode = Throw TypeError
     ∧ isValidationError TypeError = false)
  ∧ ∃ line, entryPattern line = None
      ∧ ∀ MAX_ENTRY_LENGTH CHANGELOG_ENTRY_PREFIXES n mode,
          isValidChangelogEntry MAX_ENTRY_LENGTH CHANGELOG_ENTRY_PREFIXES
            entryPattern line n mode = Throw TypeError.
Proof.
  split.
  - intros. split; [by apply validate_no_match|reflexivity].
  - exists "add dark mode". split; [reflexivity|].
    intros. by apply validate_no_match.
Qed.

Lemma unmatched_line_raises_TypeError_witness :
  entryPattern "add dark mode" = None
  ∧ isValidChangelogEntry scenarioMaxLength scenarioPrefixes entryPattern
      "add dark mode" 1 "automatic" = Throw TypeError.
Proof.
  split; [reflexivity|].
  apply (proj1 unmatched_line_raises_TypeError). reflexivity.
Defined.

(** C5: in normal mode, a line with the ["-"] marker, a prefix [p] of the
    taxonomy (as the code tests it, on the lower-cased prefix) other than
    ["skip"], and a non-empty description [d] whose trimmed length is at
    most [MAX_ENTRY_LENGTH] is returned as exactly
    [{ prefix: p, trimmedLog: d.trim() }]. *)
Theorem normal_mode_returns_trimmed_description
  (MAX_ENTRY_LENGTH : Z) (CHANGELOG_ENTRY_PREFIXES : list string)
  (ENTRY_FORMATTING_PATTERN_REGEX : string -> MatchResult)
  (line : string) (n : Z) (mode : string)
  (groups : list (option string)) (p d : string) :
  mode ≠ "manual" →
  ENTRY_FORMATTING_PATTERN_REGEX line = Some groups →
  group groups 1 = Some "-" → group groups 2 = Some p →
  group groups 3 = Some d →
  toLowerCase p ∈ CHANGELOG_ENTRY_PREFIXES →
  p ≠ "skip" → d ≠ "" →
  jsLength (trim d) <= MAX_ENTRY_LENGTH →
  isValidChangelogEntry MAX_ENTRY_LENGTH CHANGELOG_ENTRY_PREFIXES
    ENTRY_FORMATTING_PATTERN_REGEX line n mode
  = Return (mkValidatedEntry p (trim d)).
Proof.
  intros Hmode Hm Hmarker Hp Hd Hin Hskip Hne Hlen.
  rewrite <- trimmedLogOf_Some, <- Hd.
  apply validate_normal_success; try done.
  - intros _. rewrite Hd. by apply truthy_Some.
  - by rewrite Hd, trimmedLogOf_Some.
Qed.

Lemma normal_mode_returns_trimmed_description_witness :
  isValidChangelogEntry scenarioMaxLength scenarioPrefixes entryPattern
    "- fix:   correct the label lookup  " 3 "automatic"
  = Return (mkValidatedEntry "fix" "correct the label lookup").
Proof.
  apply (normal_mode_returns_trimmed_description scenarioMaxLength
           scenarioPrefixes entryPattern
           "- fix:   correct the label lookup  " 3 "automatic"
           [Some "- fix:   correct the label lookup  "; Some "-";
            Some "fix"; Some "correct the label lookup  "]
           "fix" "correct the label lookup  ").
  - discriminate.
  - reflexivity.
  - reflexivity.
  - reflexivity.
  - reflexivity.
  - apply (taxonomy_member_lower _ _ scenarioPrefixes_lower).
    by do 2 constructor.
  - discriminate.
  - discriminate.
  - unfold scenarioMaxLength. vm_compute. discriminate.
Defined.

(** C6: on ["- feat: add dark mode"] with one entry, in normal mode and
    with ["feat"] in the taxonomy, the code returns the description as it
    is written, ["add dark mode"]: it is trimmed and not capitalised. *)
Theorem scenario_A_keeps_description_case
  (MAX_ENTRY_LENGTH : Z) (CHANGELOG_ENTRY_PREFIXES : list string)
  (mode : string) :
  mode ≠ "manual" →
  "feat" ∈ CHANGELOG_ENTRY_PREFIXES →
  13 <= MAX_ENTRY_LENGTH →
  isValidChangelogEntry MAX_ENTRY_LENGTH CHANGELOG_ENTRY_PREFIXES
    entryPattern "- feat: add dark mode" 1 mode
  = Return (mkValidatedEntry "feat" "add dark mode").
Proof.
  intros Hmode Hin Hmax.
  apply (validate_normal_success _ _ _ _ _ _
           [Some "- feat: add dark mode"; Some "-"; Some "feat";
            Some "add dark mode"] "feat"); try done.
Qed.

Lemma scenario_A_keeps_description_case_witness :
  isValidChangelogEntry scenarioMaxLength scenarioPrefixes entryPattern
    "- feat: add dark mode" 1 "automatic"
  = Return (mkValidatedEntry "feat" "add dark mode")
  ∧ "add dark mode" ≠ "Add dark mode".
Proof.
  split; [|discriminate].
  apply scenario_A_keeps_description_case.
  - discriminate.
  - by constructor.
  - unfold scenarioMaxLength. lia.
Defined.

(** C7: in normal mode, on a line with the ["-"] marker, a taxonomy prefix
    other than ["skip"] and a description [d], validation succeeds when the
    trimmed description has exactly [MAX_ENTRY_LENGTH] code units, and
    throws [EntryTooLongError] (with the untrimmed length) when it has
    [MAX_ENTRY_LENGTH + 1].  The configured maximum is positive, or else the
    description is not the empty string, which the check before the length
    check rejects. *)
Theorem entry_length_boundary
  (MAX_ENTRY_LENGTH : Z) (CHANGELOG_ENTRY_PREFIXES : list string)
  (ENTRY_FORMATTING_PATTERN_REGEX : string -> MatchResult)
  (line : string) (n : Z) (mode : string)
  (groups : list (option string)) (p d : string) :
  mode ≠ "manual" →
  ENTRY_FORMATTING_PATTERN_REGEX line = Some groups →
  group groups 1 = Some "-" → group groups 2 = Some p →
  group groups 3 = Some d →
  toLowerCase p ∈ CHANGELOG_ENTRY_PREFIXES →
  p ≠ "skip" →
  0 < MAX_ENTRY_LENGTH ∨ d ≠ "" →
  (jsLength (trim d) = MAX_ENTRY_LENGTH →
   isValidChangelogEntry MAX_ENTRY_LENGTH CHANGELOG_ENTRY_PREFIXES
     ENTRY_FORMATTING_PATTERN_REGEX line n mode
   = Return (mkValidatedEntry p (trim d)))
  ∧ (jsLength (trim d) = MAX_ENTRY_LENGTH + 1 →
     isValidChangelogEntry MAX_ENTRY_LENGTH CHANGELOG_ENTRY_PREFIXES
       ENTRY_FORMATTING_PATTERN_REGEX line n mode
     = Throw (EntryTooLongError (jsLength d))).
Proof.
  intros Hmode Hm Hmarker Hp Hd Hin Hskip Hsane.
  assert (0 < jsLength (trim d) → d ≠ "") as Hne.
  { intros Hpos ->. vm_compute in Hpos. discriminate Hpos. }
  split; intros Hlen.
  - assert (d ≠ "") as Hd' by (destruct Hsane; [apply Hne; lia|done]).
    rewrite <- trimmedLogOf_Some, <- Hd.
    apply validate_normal_success; try done.
    + intros _. rewrite Hd. by apply truthy_Some.
    + rewrite Hd, trimmedLogOf_Some. lia.
  - assert (d ≠ "") as Hd' by (destruct Hsane; [apply Hne; lia|done]).
    apply (validate_normal_too_long _ _ _ _ _ _ groups p d); try done. lia.
Qed.

Lemma entry_length_boundary_witness :
  isValidChangelogEntry 12 scenarioPrefixes entryPattern
    "- fix: twelve units  " 1 "automatic"
  = Return (mkValidatedEntry "fix" "twelve units")
  ∧ isValidChangelogEntry 12 scenarioPrefixes entryPattern
      "- fix: thirteen unit  " 1 "automatic"
    = Throw (EntryTooLongError 15).
Proof.
  split.
  - apply (proj1 (entry_length_boundary 12 scenarioPrefixes entryPattern
             "- fix: twelve units  " 1 "automatic"
             [Some "- fix: twelve units  "; Some "-"; Some "fix";
              Some "twelve units  "] "fix" "twelve units  "
             ltac:(discriminate) eq_refl eq_refl eq_refl eq_refl
             ltac:(by do 2 constructor) ltac:(discriminate)
             ltac:(left; lia))).
    reflexivity.
  - apply (proj2 (entry_length_boundary 12 scenarioPrefixes entryPattern
             "- fix: thirteen unit  " 1 "automatic"
             [Some "- fix: thirteen unit  "; Some "-"; Some "fix";
              Some "thirteen unit  "] "fix" "thirteen unit  "
             ltac:(discriminate) eq_refl eq_refl eq_refl eq_refl
             ltac:(by do 2 constructor) ltac:(discriminate)
             ltac:(left; lia))).
    reflexivity.
Defined.

(** C8, as stated, fails: the prefix is returned as it was captured and
    only its lower-cased copy is compared, so ["- Feat: add dark mode"]
    yields the prefix ["Feat"] and, in manual mode, ["- SKIP: "] yields
    ["SKIP"].  Neither value is the string ["skip"] or an element of the
    taxonomy, a list of lower-case strings, although the comparison in the
    code, which ignores case, accepts both. *)
Lemma validated_prefix_keeps_case :
  isValidChangelogEntry scenarioMaxLength scenarioPrefixes entryPattern
    "- Feat: add dark mode" 1 "automatic"
  = Return (mkValidatedEntry "Feat" "add dark mode")
  ∧ isValidChangelogEntry scenarioMaxLength scenarioPrefixes entryPattern
      "- SKIP: " 1 "manual"
    = Return (mkValidatedEntry "SKIP" "")
  ∧ "Feat" ≠ "skip" ∧ ("Feat" ∉ scenarioPrefixes)
  ∧ "SKIP" ≠ "skip" ∧ ("SKIP" ∉ scenarioPrefixes)
  ∧ toLowerCase "Feat" ∈ scenarioPrefixes
  ∧ toLowerCase "SKIP" = "skip"
  ∧ Forall (fun x => toLowerCase x = x) scenarioPrefixes.
Proof.
  split; [reflexivity|]. split; [reflexivity|].
  split; [discriminate|]. split; [by apply includes_false|].
  split; [discriminate|]. split; [by apply includes_false|].
  split; [by apply includes_true|]. split; [reflexivity|].
  apply scenarioPrefixes_lower.
Qed.

(** C8 (amended): whenever validation succeeds, the prefix of the result is
    the prefix group of the match, returned as it was captured, in its
    original case; lower-cased, it is ["skip"] in manual mode and an
    element of [CHANGELOG_ENTRY_PREFIXES] in normal mode. *)
Theorem validated_prefix_lowercase_in_taxonomy
  (MAX_ENTRY_LENGTH : Z) (CHANGELOG_ENTRY_PREFIXES : list string)
  (ENTRY_FORMATTING_PATTERN_REGEX : string -> MatchResult)
  (line : string) (n : Z) (mode : string) (r : ValidatedEntry) :
  isValidChangelogEntry MAX_ENTRY_LENGTH CHANGELOG_ENTRY_PREFIXES
    ENTRY_FORMATTING_PATTERN_REGEX line n mode = Return r →
  (∃ groups,
     ENTRY_FORMATTING_PATTERN_REGEX line = Some groups
     ∧ group groups 2 = Some (prefix r))
  ∧ ((mode = "manual" ∧ toLowerCase (prefix r) = "skip")
     ∨ (mode ≠ "manual"
        ∧ toLowerCase (prefix r) ∈ CHANGELOG_ENTRY_PREFIXES)).
Proof.
  intros Hret.
  apply validate_success_inv in Hret
    as (groups & p & Hm & _ & Hp & -> & Hmanual & Hnormal).
  simpl. split; [by exists groups|].
  destruct (decide (mode = "manual")) as [Hmode|Hmode].
  - left. by auto.
  - right. by auto.
Qed.

Lemma validated_prefix_lowercase_in_taxonomy_witness :
  (∃ groups,
     entryPattern "- Feat: add dark mode" = Some groups
     ∧ group groups 2 = Some "Feat")
  ∧ (("automatic" = "manual" ∧ toLowerCase "Feat" = "skip")
     ∨ ("automatic" ≠ "manual" ∧ toLowerCase "Feat" ∈ scenarioPrefixes)).
Proof.
  apply (validated_prefix_lowercase_in_taxonomy scenarioMaxLength
           scenarioPrefixes entryPattern "- Feat: add dark mode" 1
           "automatic" (mkValidatedEntry "Feat" "add dark mode")).
  reflexivity.
Defined.

(** * Further properties *)

(** ** Trimming *)

Lemma trimStart_empty (s : string) :
  trimStart s = "" ↔ allWhiteSpace s = true.
Proof.
  induction s as [|c s IH]; simpl; [done|].
  destruct (isWhiteSpace c); simpl; [done|]. split; discriminate.
Qed.

Lemma trimEnd_empty (s : string) :
  trimEnd s = "" ↔ allWhiteSpace s = true.
Proof.
  induction s as [|c s IH]; simpl; [done|].
  destruct (trimEnd s) as [|a r] eqn:E.
  - destruct (isWhiteSpace c); simpl.
    + by rewrite <- IH.
    + split; discriminate.
  - rewrite andb_true_iff. split; [discriminate|].
    intros [_ Hs]. apply IH in Hs. discriminate Hs.
Qed.

Lemma allWhiteSpace_trimStart (s : string) :
  allWhiteSpace (trimStart s) = allWhiteSpace s.
Proof.
  induction s as [|c s IH]; simpl; [done|].
  destruct (isWhiteSpace c) eqn:E; simpl; [done|]. by rewrite E.
Qed.

(** [trim] leaves nothing exactly of the strings made of white space. *)
Lemma trim_empty (s : string) : trim s = "" ↔ allWhiteSpace s = true.
Proof. unfold trim. by rewrite trimEnd_empty, allWhiteSpace_trimStart. Qed.

Lemma startsClean_trimStart (s : string) : startsClean (trimStart s) = true.
Proof.
  induction s as [|c s IH]; simpl; [done|].
  destruct (isWhiteSpace c) eqn:E; [done|]. simpl. by rewrite E.
Qed.

Lemma trimStart_clean (s : string) : startsClean s = true → trimStart s = s.
Proof.
  destruct s as [|c s]; simpl; [done|].
  by intros ->%negb_true_iff.
Qed.

Lemma startsClean_trimEnd (s : string) :
  startsClean s = true → startsClean (trimEnd s) = true.
Proof.
  destruct s as [|c s]; simpl; [done|]. intros Hc.
  destruct (trimEnd s); [|done].
  apply negb_true_iff in Hc. rewrite Hc. simpl. by rewrite Hc.
Qed.

Lemma trimEnd_idempotent (s : string) : trimEnd (trimEnd s) = trimEnd s.
Proof.
  induction s as [|c s IH]; simpl; [done|].
  destruct (trimEnd s) as [|a r] eqn:E.
  - destruct (isWhiteSpace c) eqn:Hc; simpl; [done|]. by rewrite Hc.
  - change (trimEnd (String c (String a r)))
      with (match trimEnd (String a r) with
            | "" => if isWhiteSpace c then "" else String c ""
            | rest => String c rest
            end).
    by rewrite IH.
Qed.

Lemma trim_idempotent (s : string) : trim (trim s) = trim s.
Proof.
  unfold trim.
  rewrite (trimStart_clean (trimEnd (trimStart s))).
  - apply trimEnd_idempotent.
  - apply startsClean_trimEnd, startsClean_trimStart.
Qed.

Lemma length_trimStart (s : string) :
  (String.length (trimStart s) ≤ String.length s)%nat.
Proof.
  induction s as [|c s IH]; simpl; [done|].
  destruct (isWhiteSpace c); simpl; lia.
Qed.

Lemma length_trimEnd (s : string) :
  (String.length (trimEnd s) ≤ String.length s)%nat.
Proof.
  induction s as [|c s IH]; simpl; [done|].
  destruct (trimEnd s); [destruct (isWhiteSpace c)|]; simpl in *; lia.
Qed.

Lemma jsLength_trim (s : string) : jsLength (trim s) <= jsLength s.
Proof.
  unfold jsLength, trim.
  pose proof (length_trimEnd (trimStart s)).
  pose proof (length_trimStart s). lia.
Qed.

(** ** More on entry validation *)

Section ValidatorTable.
Variable MAX_ENTRY_LENGTH : Z.
Variable CHANGELOG_ENTRY_PREFIXES : list string.
Variable ENTRY_FORMATTING_PATTERN_REGEX : string -> MatchResult.

Local Abbreviation validate :=
  (isValidChangelogEntry MAX_ENTRY_LENGTH CHANGELOG_ENTRY_PREFIXES
     ENTRY_FORMATTING_PATTERN_REGEX).

Lemma validate_marker_missing (line : string) (n : Z) (mode : string)
  (groups : list (option string)) :
  ENTRY_FORMATTING_PATTERN_REGEX line = Some groups →
  group groups 1 ≠ Some "-" →
  validate line n mode = Throw ChangelogEntryMissingHyphenError.
Proof.
  intros Hm Hmarker. unfold isValidChangelogEntry. rewrite Hm.
  destruct (strictEq (group groups 1) "-") eqn:E.
  { by apply strictEq_true in E. }
  unfold manualBranch, normalBranch. rewrite E.
  by destruct (String.eqb mode "manual").
Qed.

Lemma validate_prefix_undefined (line : string) (n : Z) (mode : string)
  (groups : list (option string)) :
  ENTRY_FORMATTING_PATTERN_REGEX line = Some groups →
  group groups 1 = Some "-" → group groups 2 = None →
  validate line n mode = Throw TypeError.
Proof.
  intros Hm Hmarker Hp. unfold isValidChangelogEntry.
  unfold manualBranch, normalBranch. rewrite Hm, Hmarker, Hp. simpl.
  by destruct (String.eqb mode "manual").
Qed.

(** The checks of normal mode, in their order, on a line with the marker
    and a captured prefix. *)
Lemma validate_normal_table (line : string) (n : Z) (mode : string)
  (groups : list (option string)) (p : string) :
  mode ≠ "manual" →
  ENTRY_FORMATTING_PATTERN_REGEX line = Some groups →
  group groups 1 = Some "-" → group groups 2 = Some p →
  validate line n mode
  = if negb (includes CHANGELOG_ENTRY_PREFIXES (toLowerCase p)) then
      Throw (InvalidPrefixError p)
    else if String.eqb p "skip" && (n >? 1) then
      Throw InvalidAdditionalPrefixWithSkipEntryOptionError
    else if negb (String.eqb p "skip") && negb (truthy (group groups 3)) then
      Throw (EmptyEntryDescriptionError p)
    else if jsLength (trimmedLogOf (group groups 3)) >? MAX_ENTRY_LENGTH then
      match group groups 3 with
      | Some l => Throw (EntryTooLongError (jsLength l))
      | None => Throw TypeError
      end
    else Return (mkValidatedEntry p (trimmedLogOf (group groups 3))).
Proof.
  intros Hmode Hm Hmarker Hp. unfold isValidChangelogEntry, normalBranch.
  apply String.eqb_neq in Hmode. rewrite Hm, Hmode, Hmarker, Hp. simpl.
  destruct (includes _ _); simpl; [|done].
  destruct (String.eqb p "skip" && (n >? 1)); [done|].
  destruct (negb (String.eqb p "skip") && negb (truthy (group groups 3)));
    [done|].
  destruct (_ >? _); [|done]. by destruct (group groups 3).
Qed.

End ValidatorTable.

(** X1: a line whose marker group is not ["-"] is reported as
    [ChangelogEntryMissingHyphenError] in both modes, before the prefix is
    looked at: whatever the prefix (also an invalid or an absent one), the
    description and the number of entries. *)
Theorem missing_marker_reported_first
  (MAX_ENTRY_LENGTH : Z) (CHANGELOG_ENTRY_PREFIXES : list string)
  (ENTRY_FORMATTING_PATTERN_REGEX : string -> MatchResult)
  (line : string) (n : Z) (mode : string)
  (groups : list (option string)) :
  ENTRY_FORMATTING_PATTERN_REGEX line = Some groups →
  group groups 1 ≠ Some "-" →
  isValidChangelogEntry MAX_ENTRY_LENGTH CHANGELOG_ENTRY_PREFIXES
    ENTRY_FORMATTING_PATTERN_REGEX line n mode
  = Throw ChangelogEntryMissingHyphenError.
Proof. apply validate_marker_missing. Qed.

Lemma missing_marker_reported_first_witness :
  isValidChangelogEntry scenarioMaxLength scenarioPrefixes entryPattern
    "bogus: " 4 "automatic"
  = Throw ChangelogEntryMissingHyphenError.
Proof.
  apply (missing_marker_reported_first scenarioMaxLength scenarioPrefixes
           entryPattern "bogus: " 4 "automatic"
           [Some "bogus: "; None; Some "bogus"; None]).
  - reflexivity.
  - discriminate.
Defined.

(** X2: manual mode consults neither the taxonomy, nor the maximum length,
    nor the number of entries: the result is the same for all of them.  In
    particular a skip line of any length is accepted. *)
Theorem manual_mode_ignores_configuration
  (MAX_ENTRY_LENGTH MAX_ENTRY_LENGTH' : Z)
  (CHANGELOG_ENTRY_PREFIXES CHANGELOG_ENTRY_PREFIXES' : list string)
  (ENTRY_FORMATTING_PATTERN_REGEX : string -> MatchResult)
  (line : string) (n n' : Z) :
  isValidChangelogEntry MAX_ENTRY_LENGTH CHANGELOG_ENTRY_PREFIXES
    ENTRY_FORMATTING_PATTERN_REGEX line n "manual"
  = isValidChangelogEntry MAX_ENTRY_LENGTH' CHANGELOG_ENTRY_PREFIXES'
      ENTRY_FORMATTING_PATTERN_REGEX line n' "manual".
Proof. reflexivity. Qed.

(** X3: in normal mode, a line with the marker and a captured prefix [p]
    fails with [InvalidPrefixError] exactly when the lower-cased [p] is not
    in the taxonomy; the error carries [p] as it was written, and the
    description and number of entries play no part. *)
Theorem invalid_prefix_iff
  (MAX_ENTRY_LENGTH : Z) (CHANGELOG_ENTRY_PREFIXES : list string)
  (ENTRY_FORMATTING_PATTERN_REGEX : string -> MatchResult)
  (line : string) (n : Z) (mode : string)
  (groups : list (option string)) (p : string) :
  mode ≠ "manual" →
  ENTRY_FORMATTING_PATTERN_REGEX line = Some groups →
  group groups 1 = Some "-" → group groups 2 = Some p →
  (toLowerCase p ∉ CHANGELOG_ENTRY_PREFIXES
   ↔ isValidChangelogEntry MAX_ENTRY_LENGTH CHANGELOG_ENTRY_PREFIXES
       ENTRY_FORMATTING_PATTERN_REGEX line n mode
     = Throw (InvalidPrefixError p))
  ∧ (∀ q, isValidChangelogEntry MAX_ENTRY_LENGTH CHANGELOG_ENTRY_PREFIXES
            ENTRY_FORMATTING_PATTERN_REGEX line n mode
          = Throw (InvalidPrefixError q) → q = p).
Proof.
  intros Hmode Hm Hmarker Hp.
  rewrite (validate_normal_table _ _ _ _ _ _ groups p) by done.
  destruct (includes CHANGELOG_ENTRY_PREFIXES (toLowerCase p)) eqn:Hin; simpl.
  - apply includes_true in Hin.
    assert (∀ q, (if String.eqb p "skip" && (n >? 1) then
        Throw InvalidAdditionalPrefixWithSkipEntryOptionError
      else if negb (String.eqb p "skip") && negb (truthy (group groups 3)) then
        Throw (EmptyEntryDescriptionError p)
      else if jsLength (trimmedLogOf (group groups 3)) >? MAX_ENTRY_LENGTH then
        match group groups 3 with
        | Some l => Throw (EntryTooLongError (jsLength l))
        | None => Throw TypeError
        end
      else Return (mkValidatedEntry p (trimmedLogOf (group groups 3))))
      ≠ Throw (InvalidPrefixError q)) as Hno.
    { intros q.
      destruct (String.eqb p "skip" && (n >? 1)); [discriminate|].
      destruct (negb (String.eqb p "skip") && negb (truthy (group groups 3)));
        [discriminate|].
      destruct (_ >? _); [|discriminate].
      destruct (group groups 3); discriminate. }
    split.
    + split; [done|]. intros H. by apply Hno in H.
    + intros q H. by apply Hno in H.
  - apply includes_false in Hin. split; [done|]. by intros q [= ->].
Qed.

Lemma invalid_prefix_iff_witness :
  isValidChangelogEntry scenarioMaxLength scenarioPrefixes entryPattern
    "- Bogus: " 4 "automatic"
  = Throw (InvalidPrefixError "Bogus").
Proof.
  apply (proj1 (invalid_prefix_iff scenarioMaxLength scenarioPrefixes
                  entryPattern "- Bogus: " 4 "automatic"
                  [Some "- Bogus: "; Some "-"; Some "Bogus"; None] "Bogus"
                  ltac:(discriminate) eq_refl eq_refl eq_refl)).
  by apply includes_false.
Defined.

(** X4: in normal mode, on a line with the marker, a taxonomy prefix and no
    description (the group is absent or empty), a prefix other than
    ["skip"] fails with [EmptyEntryDescriptionError], while ["skip"] as the
    only entry succeeds with the empty description, when the maximum length
    is not negative. *)
Theorem empty_description_outcome
  (MAX_ENTRY_LENGTH : Z) (CHANGELOG_ENTRY_PREFIXES : list string)
  (ENTRY_FORMATTING_PATTERN_REGEX : string -> MatchResult)
  (line : string) (n : Z) (mode : string)
  (groups : list (option string)) (p : string) :
  mode ≠ "manual" →
  ENTRY_FORMATTING_PATTERN_REGEX line = Some groups →
  group groups 1 = Some "-" → group groups 2 = Some p →
  toLowerCase p ∈ CHANGELOG_ENTRY_PREFIXES →
  truthy (group groups 3) = false →
  (p ≠ "skip" →
   isValidChangelogEntry MAX_ENTRY_LENGTH CHANGELOG_ENTRY_PREFIXES
     ENTRY_FORMATTING_PATTERN_REGEX line n mode
   = Throw (EmptyEntryDescriptionError p))
  ∧ (p = "skip" → n <= 1 → 0 <= MAX_ENTRY_LENGTH →
     isValidChangelogEntry MAX_ENTRY_LENGTH CHANGELOG_ENTRY_PREFIXES
       ENTRY_FORMATTING_PATTERN_REGEX line n mode
     = Return (mkValidatedEntry "skip" "")).
Proof.
  intros Hmode Hm Hmarker Hp Hin Hlog.
  rewrite (validate_normal_table _ _ _ _ _ _ groups p) by done.
  apply includes_true in Hin. rewrite Hin, Hlog. simpl.
  assert (trimmedLogOf (group groups 3) = "") as ->.
  { destruct (group groups 3) as [l|]; [|done].
    unfold trimmedLogOf. by rewrite Hlog. }
  split.
  - intros Hne. apply String.eqb_neq in Hne. by rewrite Hne.
  - intros -> Hn Hmax. simpl.
    destruct (n >? 1) eqn:E; [apply Z.gtb_lt in E; lia|].
    destruct (jsLength "" >? MAX_ENTRY_LENGTH) eqn:E'; [|done].
    apply Z.gtb_lt in E'. unfold jsLength in E'. simpl in E'. lia.
Qed.

Lemma empty_description_outcome_witness :
  isValidChangelogEntry scenarioMaxLength scenarioPrefixes entryPattern
    "- fix:   " 1 "automatic"
  = Throw (EmptyEntryDescriptionError "fix")
  ∧ isValidChangelogEntry scenarioMaxLength scenarioPrefixes entryPattern
      "- skip:" 1 "automatic"
    = Return (mkValidatedEntry "skip" "").
Proof.
  split.
  - apply (proj1 (empty_description_outcome scenarioMaxLength
             scenarioPrefixes entryPattern "- fix:   " 1 "automatic"
             [Some "- fix:   "; Some "-"; Some "fix"; None] "fix"
             ltac:(discriminate) eq_refl eq_refl eq_refl
             ltac:(by do 2 constructor) eq_refl)).
    discriminate.
  - apply (proj2 (empty_description_outcome scenarioMaxLength
             scenarioPrefixes entryPattern "- skip:" 1 "automatic"
             [Some "- skip:"; Some "-"; Some "skip"; None] "skip"
             ltac:(discriminate) eq_refl eq_refl eq_refl
             ltac:(by do 3 constructor) eq_refl)).
    + reflexivity.
    + lia.
    + unfold scenarioMaxLength. lia.
Defined.

(** X5: whatever normal mode accepts respects the maximum: the returned
    [trimmedLog] has at most [MAX_ENTRY_LENGTH] code units, for skip
    entries as for the others. *)
Theorem validated_log_within_maximum
  (MAX_ENTRY_LENGTH : Z) (CHANGELOG_ENTRY_PREFIXES : list string)
  (ENTRY_FORMATTING_PATTERN_REGEX : string -> MatchResult)
  (line : string) (n : Z) (mode : string) (r : ValidatedEntry) :
  mode ≠ "manual" →
  isValidChangelogEntry MAX_ENTRY_LENGTH CHANGELOG_ENTRY_PREFIXES
    ENTRY_FORMATTING_PATTERN_REGEX line n mode = Return r →
  jsLength (trimmedLog r) <= MAX_ENTRY_LENGTH.
Proof.
  intros Hmode Hret.
  destruct (validate_success_inv _ _ _ _ _ _ _ Hret)
    as (groups & p & Hm & Hmarker & Hp & _).
  rewrite (validate_normal_table _ _ _ _ _ _ groups p) in Hret by done.
  destruct (negb _); [discriminate|].
  destruct (String.eqb p "skip" && (n >? 1)); [discriminate|].
  destruct (negb (String.eqb p "skip") && negb (truthy (group groups 3)));
    [discriminate|].
  destruct (_ >? _) eqn:E.
  { destruct (group groups 3); discriminate. }
  injection Hret as <-. simpl.
  rewrite Z.gtb_ltb in E. apply Z.ltb_ge in E. lia.
Qed.

Lemma validated_log_within_maximum_witness :
  jsLength (trimmedLog (mkValidatedEntry "fix" "twelve units")) <= 12.
Proof.
  apply (validated_log_within_maximum 12 scenarioPrefixes entryPattern
           "- fix: twelve units  " 1 "automatic").
  - discriminate.
  - reflexivity.
Defined.

(** X6: the [trimmedLog] of every accepted entry, in either mode, is
    trimmed: trimming it again changes nothing, so it neither starts nor
    ends with white space. *)
Theorem validated_log_is_trimmed
  (MAX_ENTRY_LENGTH : Z) (CHANGELOG_ENTRY_PREFIXES : list string)
  (ENTRY_FORMATTING_PATTERN_REGEX : string -> MatchResult)
  (line : string) (n : Z) (mode : string) (r : ValidatedEntry) :
  isValidChangelogEntry MAX_ENTRY_LENGTH CHANGELOG_ENTRY_PREFIXES
    ENTRY_FORMATTING_PATTERN_REGEX line n mode = Return r →
  trim (trimmedLog r) = trimmedLog r
  ∧ startsClean (trimmedLog r) = true.
Proof.
  intros Hret.
  destruct (validate_success_inv _ _ _ _ _ _ _ Hret)
    as (groups & p & _ & _ & _ & -> & _).
  simpl. destruct (group groups 3) as [l|]; [|done].
  rewrite trimmedLogOf_Some. split; [apply trim_idempotent|].
  apply startsClean_trimEnd, startsClean_trimStart.
Qed.

Lemma validated_log_is_trimmed_witness :
  trim "correct the label lookup" = "correct the label lookup"
  ∧ startsClean "correct the label lookup" = true.
Proof.
  apply (validated_log_is_trimmed scenarioMaxLength scenarioPrefixes
           entryPattern "- fix:   correct the label lookup  " 3 "automatic"
           (mkValidatedEntry "fix" "correct the label lookup")).
  reflexivity.
Defined.

(** X7: when validation fails with [EntryTooLongError], the length the
    error reports is the length of the description as captured, before
    trimming; the trimmed description, and hence the reported length too,
    exceeds the maximum. *)
Theorem too_long_reports_untrimmed_length
  (MAX_ENTRY_LENGTH : Z) (CHANGELOG_ENTRY_PREFIXES : list string)
  (ENTRY_FORMATTING_PATTERN_REGEX : string -> MatchResult)
  (line : string) (n : Z) (mode : string) (k : Z) :
  isValidChangelogEntry MAX_ENTRY_LENGTH CHANGELOG_ENTRY_PREFIXES
    ENTRY_FORMATTING_PATTERN_REGEX line n mode
  = Throw (EntryTooLongError k) →
  ∃ groups d,
    ENTRY_FORMATTING_PATTERN_REGEX line = Some groups
    ∧ group groups 3 = Some d
    ∧ k = jsLength d
    ∧ MAX_ENTRY_LENGTH < jsLength (trim d) <= k.
Proof.
  unfold isValidChangelogEntry.
  destruct (ENTRY_FORMATTING_PATTERN_REGEX line) as [groups|];
    [|discriminate].
  intros Hret. exists groups.
  unfold manualBranch, normalBranch in Hret.
  destruct (strictEq (group groups 1) "-"); simpl in Hret.
  2:{ destruct (String.eqb mode "manual"); discriminate. }
  destruct (group groups 2) as [p|].
  2:{ destruct (String.eqb mode "manual"); discriminate. }
  destruct (String.eqb mode "manual").
  { destruct (negb _); discriminate. }
  destruct (negb (includes _ _)); [discriminate|].
  destruct (String.eqb p "skip" && (n >? 1)); [discriminate|].
  destruct (negb (String.eqb p "skip") && negb (truthy (group groups 3)));
    [discriminate|].
  destruct (_ >? _) eqn:E; [|discriminate].
  destruct (group groups 3) as [d|]; [|discriminate].
  injection Hret as <-. exists d. rewrite trimmedLogOf_Some in E.
  apply Z.gtb_lt in E. pose proof (jsLength_trim d). by auto with lia.
Qed.

Lemma too_long_reports_untrimmed_length_witness :
  ∃ groups d,
    entryPattern "- fix: thirteen unit  " = Some groups
    ∧ group groups 3 = Some d
    ∧ 15 = jsLength d
    ∧ 12 < jsLength (trim d) <= 15.
Proof.
  apply (too_long_reports_untrimmed_length 12 scenarioPrefixes entryPattern
           "- fix: thirteen unit  " 1 "automatic" 15).
  reflexivity.
Defined.

(** X8: with a maximum length that is not negative, validation ends in the
    engine's [TypeError] exactly when the pattern does not match the line,
    or matches it with the marker ["-"] and no prefix group; on every other
    line the outcome is a result or one of the six typed validation
    errors: nothing else is ever thrown. *)
Theorem type_error_iff
  (MAX_ENTRY_LENGTH : Z) (CHANGELOG_ENTRY_PREFIXES : list string)
  (ENTRY_FORMATTING_PATTERN_REGEX : string -> MatchResult)
  (line : string) (n : Z) (mode : string) :
  0 <= MAX_ENTRY_LENGTH →
  (isValidChangelogEntry MAX_ENTRY_LENGTH CHANGELOG_ENTRY_PREFIXES
     ENTRY_FORMATTING_PATTERN_REGEX line n mode = Throw TypeError
   ↔ ENTRY_FORMATTING_PATTERN_REGEX line = None
     ∨ ∃ groups, ENTRY_FORMATTING_PATTERN_REGEX line = Some groups
         ∧ group groups 1 = Some "-" ∧ group groups 2 = None)
  ∧ (∀ e, isValidChangelogEntry MAX_ENTRY_LENGTH CHANGELOG_ENTRY_PREFIXES
            ENTRY_FORMATTING_PATTERN_REGEX line n mode = Throw e →
          e = TypeError
          ∨ e = ChangelogEntryMissingHyphenError
          ∨ (∃ p, e = InvalidPrefixError p)
          ∨ (∃ p, e = InvalidPrefixForManualChangesetCreationError p)
          ∨ e = InvalidAdditionalPrefixWithSkipEntryOptionError
          ∨ (∃ p, e = EmptyEntryDescriptionError p)
          ∨ (∃ k, e = EntryTooLongError k)).
Proof.
  intros Hmax. split; [split|].
  - destruct (ENTRY_FORMATTING_PATTERN_REGEX line) as [groups|] eqn:Hm;
      [|by left].
    intros Hret. right. exists groups. split; [done|].
    destruct (decide (group groups 1 = Some "-")) as [Hmarker|Hmarker].
    2:{ rewrite (validate_marker_missing _ _ _ _ _ _ groups) in Hret by done.
        discriminate. }
    split; [done|].
    destruct (group groups 2) as [p|] eqn:Hp; [exfalso|done].
    destruct (decide (mode = "manual")) as [->|Hmode].
    + rewrite (validate_manual _ _ _ _ _ groups p) in Hret by done.
      destruct (String.eqb _ _); discriminate.
    + rewrite (validate_normal_table _ _ _ _ _ _ groups p) in Hret by done.
      destruct (negb _); [discriminate|].
      destruct (String.eqb p "skip" && (n >? 1)); [discriminate|].
      destruct (negb (String.eqb p "skip") && negb (truthy (group groups 3)));
        [discriminate|].
      destruct (_ >? _) eqn:E; [|discriminate].
      destruct (group groups 3); [discriminate|].
      apply Z.gtb_lt in E. unfold jsLength in E. simpl in E. lia.
  - intros [Hm|(groups & Hm & Hmarker & Hp)].
    + by apply validate_no_match.
    + by apply (validate_prefix_undefined _ _ _ _ _ _ groups).
  - intros e Hret.
    destruct (ENTRY_FORMATTING_PATTERN_REGEX line) as [groups|] eqn:Hm.
    2:{ rewrite validate_no_match in Hret by done.
        injection Hret as <-. by left. }
    destruct (decide (group groups 1 = Some "-")) as [Hmarker|Hmarker].
    2:{ rewrite (validate_marker_missing _ _ _ _ _ _ groups) in Hret by done.
        injection Hret as <-. right. by left. }
    destruct (group groups 2) as [p|] eqn:Hp.
    2:{ rewrite (validate_prefix_undefined _ _ _ _ _ _ groups) in Hret
          by done.
        injection Hret as <-. by left. }
    destruct (decide (mode = "manual")) as [->|Hmode].
    + rewrite (validate_manual _ _ _ _ _ groups p) in Hret by done.
      destruct (String.eqb _ _); [discriminate|].
      injection Hret as <-. do 3 right. left. by exists p.
    + rewrite (validate_normal_table _ _ _ _ _ _ groups p) in Hret by done.
      destruct (negb _).
      { injection Hret as <-. do 2 right. left. by exists p. }
      destruct (String.eqb p "skip" && (n >? 1)).
      { injection Hret as <-. do 4 right. by left. }
      destruct (negb (String.eqb p "skip") && negb (truthy (group groups 3))).
      { injection Hret as <-. do 5 right. left. by exists p. }
      destruct (_ >? _); [|discriminate].
      destruct (group groups 3) as [l|]; injection Hret as <-.
      * do 6 right. by exists (jsLength l).
      * by left.
Qed.

Lemma type_error_iff_witness :
  isValidChangelogEntry scenarioMaxLength scenarioPrefixes entryPattern
    "no separator here" 1 "manual" = Throw TypeError
  ∧ (InvalidPrefixError "bogus" = TypeError
     ∨ InvalidPrefixError "bogus" = ChangelogEntryMissingHyphenError
     ∨ (∃ p, InvalidPrefixError "bogus" = InvalidPrefixError p)
     ∨ (∃ p, InvalidPrefixError "bogus"
             = InvalidPrefixForManualChangesetCreationError p)
     ∨ InvalidPrefixError "bogus"
       = InvalidAdditionalPrefixWithSkipEntryOptionError
     ∨ (∃ p, InvalidPrefixError "bogus" = EmptyEntryDescriptionError p)
     ∨ (∃ k, InvalidPrefixError "bogus" = EntryTooLongError k)).
Proof.
  split.
  - apply (proj1 (type_error_iff scenarioMaxLength scenarioPrefixes
                    entryPattern "no separator here" 1 "manual"
                    ltac:(unfold scenarioMaxLength; lia))).
    left. reflexivity.
  - apply (proj2 (type_error_iff scenarioMaxLength scenarioPrefixes
                    entryPattern "- bogus: text" 1 "automatic"
                    ltac:(unfold scenarioMaxLength; lia))).
    reflexivity.
Defined.

(** X9: the number of entries matters only to a prefix that is exactly
    ["skip"]: on a line whose prefix group is anything else (["SKIP"]
    included) the outcome is the same for every number of entries. *)
Theorem total_entries_matter_to_skip_only
  (MAX_ENTRY_LENGTH : Z) (CHANGELOG_ENTRY_PREFIXES : list string)
  (ENTRY_FORMATTING_PATTERN_REGEX : string -> MatchResult)
  (line : string) (n n' : Z) (mode : string) :
  (∀ groups, ENTRY_FORMATTING_PATTERN_REGEX line = Some groups →
             group groups 2 ≠ Some "skip") →
  isValidChangelogEntry MAX_ENTRY_LENGTH CHANGELOG_ENTRY_PREFIXES
    ENTRY_FORMATTING_PATTERN_REGEX line n mode
  = isValidChangelogEntry MAX_ENTRY_LENGTH CHANGELOG_ENTRY_PREFIXES
      ENTRY_FORMATTING_PATTERN_REGEX line n' mode.
Proof.
  intros Hskip. unfold isValidChangelogEntry.
  destruct (ENTRY_FORMATTING_PATTERN_REGEX line) as [groups|]; [|done].
  specialize (Hskip groups eq_refl).
  destruct (String.eqb mode "manual"); [done|].
  unfold normalBranch.
  destruct (group groups 2) as [p|]; [|done].
  assert (String.eqb p "skip" = false) as ->; [|done].
  apply String.eqb_neq. by intros ->.
Qed.

Lemma total_entries_matter_to_skip_only_witness :
  isValidChangelogEntry scenarioMaxLength scenarioPrefixes entryPattern
    "- SKIP: not a skip entry" 1 "automatic"
  = isValidChangelogEntry scenarioMaxLength scenarioPrefixes entryPattern
      "- SKIP: not a skip entry" 9 "automatic"
  ∧ isValidChangelogEntry scenarioMaxLength scenarioPrefixes entryPattern
      "- SKIP: not a skip entry" 9 "automatic"
    = Return (mkValidatedEntry "SKIP" "not a skip entry").
Proof.
  split; [|reflexivity].
  apply total_entries_matter_to_skip_only.
  intros groups [= <-]. discriminate.
Defined.

(** X10: the taxonomy counts as a set: two lists with the same elements,
    in any order and with any repetitions, give the same outcome on every
    line. *)
Theorem taxonomy_is_a_set
  (MAX_ENTRY_LENGTH : Z)
  (CHANGELOG_ENTRY_PREFIXES CHANGELOG_ENTRY_PREFIXES' : list string)
  (ENTRY_FORMATTING_PATTERN_REGEX : string -> MatchResult)
  (line : string) (n : Z) (mode : string) :
  (∀ x, x ∈ CHANGELOG_ENTRY_PREFIXES ↔ x ∈ CHANGELOG_ENTRY_PREFIXES') →
  isValidChangelogEntry MAX_ENTRY_LENGTH CHANGELOG_ENTRY_PREFIXES
    ENTRY_FORMATTING_PATTERN_REGEX line n mode
  = isValidChangelogEntry MAX_ENTRY_LENGTH CHANGELOG_ENTRY_PREFIXES'
      ENTRY_FORMATTING_PATTERN_REGEX line n mode.
Proof.
  intros Hsame. unfold isValidChangelogEntry.
  destruct (ENTRY_FORMATTING_PATTERN_REGEX line) as [groups|]; [|done].
  destruct (String.eqb mode "manual"); [done|].
  unfold normalBranch.
  destruct (group groups 2) as [p|]; [|done].
  assert (includes CHANGELOG_ENTRY_PREFIXES (toLowerCase p)
          = includes CHANGELOG_ENTRY_PREFIXES' (toLowerCase p)) as ->;
    [|done].
  unfold includes. apply bool_decide_ext, Hsame.
Qed.

Lemma taxonomy_is_a_set_witness :
  isValidChangelogEntry scenarioMaxLength ["feat"; "fix"; "skip"]
    entryPattern "- fix: correct the label lookup" 2 "automatic"
  = isValidChangelogEntry scenarioMaxLength ["skip"; "fix"; "feat"; "fix"]
      entryPattern "- fix: correct the label lookup" 2 "automatic".
Proof.
  apply taxonomy_is_a_set. intros x.
  rewrite !elem_of_cons, !elem_of_nil. tauto.
Defined.

(** ** More on labels and the skip policy *)

Section UpdatePRLabelCases.
Context {W : Type}.
Variables (octokit : Octokit W) (owner repo : string) (prNumber : Z).

(** The presence test of [updatePRLabel]. *)
Local Abbreviation listed label currentLabels :=
  (existsb (fun element => String.eqb (name element) (toLowerCase label))
     currentLabels).

Lemma updatePRLabel_list_failure (label : string) (addLabel : bool)
  (e : error) (w w1 : W) :
  listLabelsOnIssue octokit owner repo prNumber w = (Throw e, w1) →
  updatePRLabel octokit owner repo prNumber label addLabel w
  = (Throw UpdatePRLabelError, w1).
Proof. intros H. unfold updatePRLabel, tryCatch, await. by rewrite H. Qed.

Lemma updatePRLabel_settled (label : string) (addLabel : bool)
  (currentLabels : list Label) (w w1 : W) :
  listLabelsOnIssue octokit owner repo prNumber w
  = (Return currentLabels, w1) →
  listed label currentLabels = addLabel →
  updatePRLabel octokit owner repo prNumber label addLabel w
  = (Return tt, w1).
Proof.
  intros H Hsame. unfold updatePRLabel, tryCatch, await. rewrite H, Hsame.
  by destruct addLabel.
Qed.

Lemma updatePRLabel_outcome (label : string) (addLabel : bool) (w : W) :
  fst (updatePRLabel octokit owner repo prNumber label addLabel w)
  = Return tt
  ∨ fst (updatePRLabel octokit owner repo prNumber label addLabel w)
    = Throw UpdatePRLabelError.
Proof.
  unfold updatePRLabel, tryCatch, await, reject, resolve.
  destruct (listLabelsOnIssue _ _ _ _ w) as [[ls|e] w1]; [|by right].
  destruct (addLabel && negb _).
  { destruct (addLabels _ _ _ _ _ w1) as [[[]|e] w2]; by auto. }
  destruct (negb addLabel && _).
  { destruct (removeLabel _ _ _ _ _ w1) as [[[]|e] w2]; by auto. }
  by left.
Qed.

End UpdatePRLabelCases.

(** X11: [updatePRLabel] throws nothing but [UpdatePRLabelError]: whatever
    the three API operations do, it completes or throws that error. *)
Theorem updatePRLabel_throws_only_its_error {W : Type}
  (octokit : Octokit W) (owner repo : string) (prNumber : Z)
  (label : string) (addLabel : bool) (w : W) :
  fst (updatePRLabel octokit owner repo prNumber label addLabel w)
  = Return tt
  ∨ fst (updatePRLabel octokit owner repo prNumber label addLabel w)
    = Throw UpdatePRLabelError.
Proof. apply updatePRLabel_outcome. Qed.

(** X12: [updatePRLabel] changes nothing that is already as asked.  When
    the listing succeeds and a label named as the lower-cased [label] is
    listed exactly when [addLabel] is set, it completes in the state the
    listing left: neither [addLabels] nor [removeLabel] is requested,
    whatever they would do. *)
Theorem updatePRLabel_settled_is_noop {W : Type}
  (octokit : Octokit W) (owner repo : string) (prNumber : Z)
  (label : string) (addLabel : bool)
  (currentLabels : list Label) (w w1 : W) :
  listLabelsOnIssue octokit owner repo prNumber w
  = (Return currentLabels, w1) →
  existsb (fun element => String.eqb (name element) (toLowerCase label))
    currentLabels = addLabel →
  updatePRLabel octokit owner repo prNumber label addLabel w
  = (Return tt, w1).
Proof. apply updatePRLabel_settled. Qed.

Lemma updatePRLabel_settled_is_noop_witness :
  updatePRLabel FakeHost.octokit "opensearch-project" "OpenSearch" 7
    "skip-changelog" true
    (FakeHost.mkHost true [mkLabel "bug"; mkLabel "skip-changelog"])
  = (Return tt,
     FakeHost.mkHost true [mkLabel "bug"; mkLabel "skip-changelog"])
  ∧ updatePRLabel FakeHost.octokit "opensearch-project" "OpenSearch" 7
      "Skip-Changelog" false
      (FakeHost.mkHost true [mkLabel "Skip-Changelog"])
    = (Return tt, FakeHost.mkHost true [mkLabel "Skip-Changelog"]).
Proof.
  split.
  - apply (updatePRLabel_settled_is_noop FakeHost.octokit _ _ _ _ _
             [mkLabel "bug"; mkLabel "skip-changelog"]);
      reflexivity.
  - apply (updatePRLabel_settled_is_noop FakeHost.octokit _ _ _ _ _
             [mkLabel "Skip-Changelog"]);
      reflexivity.
Defined.

(** X13: when the labels cannot be listed, [updatePRLabel] throws
    [UpdatePRLabelError] in the state the failed listing left, without
    requesting any change of the labels. *)
Theorem updatePRLabel_list_failure_stops {W : Type}
  (octokit : Octokit W) (owner repo : string) (prNumber : Z)
  (label : string) (addLabel : bool) (e : error) (w w1 : W) :
  listLabelsOnIssue octokit owner repo prNumber w = (Throw e, w1) →
  updatePRLabel octokit owner repo prNumber label addLabel w
  = (Throw UpdatePRLabelError, w1).
Proof. apply updatePRLabel_list_failure. Qed.

Lemma updatePRLabel_list_failure_stops_witness :
  updatePRLabel FakeHost.octokit "opensearch-project" "OpenSearch" 7
    "skip-changelog" true offline
  = (Throw UpdatePRLabelError, offline).
Proof.
  apply (updatePRLabel_list_failure_stops FakeHost.octokit _ _ _ _ _
           (RequestError 503)).
  reflexivity.
Defined.

(** X14: an absent entry map ([null] or [undefined]) is handled as a map
    without ["skip"]: [isSkipEntry] answers [false], and
    [handleSkipOption] makes the one [updateLabel] call that withdraws the
    label and returns [false] when it completes, or throws what it
    throws. *)
Theorem absent_entry_map_is_not_skip {W : Type}
  (SKIP_LABEL : string) (octokit : Octokit W) (owner repo : string)
  (prNumber : Z) (updateLabel : UpdateLabel) (w : W) :
  isSkipEntry None = false
  ∧ handleSkipOption SKIP_LABEL octokit None owner repo prNumber
      updateLabel w
    = (match fst (updateLabel octokit owner repo prNumber SKIP_LABEL
                    false w) with
       | Return _ => Return false
       | Throw e => Throw e
       end,
       snd (updateLabel octokit owner repo prNumber SKIP_LABEL false w)).
Proof.
  split; [reflexivity|]. unfold handleSkipOption, await, resolve.
  by destruct (updateLabel _ _ _ _ _ false w) as [[[]|e] w'].
Qed.

(** X15: [handleSkipOption] and [isSkipEntry] agree: whenever
    [handleSkipOption] returns, with any [updateLabel], the value it
    returns is the one [isSkipEntry] gives for the same entry map. *)
Theorem handleSkipOption_agrees_with_isSkipEntry {W : Type}
  (SKIP_LABEL : string) (octokit : Octokit W) (owner repo : string)
  (prNumber : Z) (updateLabel : UpdateLabel)
  (entryMap : option (gmap string string)) (w : W) (b : bool) :
  fst (handleSkipOption SKIP_LABEL octokit entryMap owner repo prNumber
         updateLabel w) = Return b →
  isSkipEntry entryMap = b.
Proof.
  unfold handleSkipOption, isSkipEntry, await, resolve, reject.
  destruct entryMap as [m|].
  - destruct (includes (Object_keys m) "skip").
    + destruct (_ >? 1); [discriminate|].
      destruct (updateLabel _ _ _ _ _ true w) as [[[]|e] w']; simpl;
        congruence.
    + destruct (updateLabel _ _ _ _ _ false w) as [[[]|e] w']; simpl;
        congruence.
  - destruct (updateLabel _ _ _ _ _ false w) as [[[]|e] w']; simpl;
      congruence.
Qed.

Lemma handleSkipOption_agrees_with_isSkipEntry_witness :
  isSkipEntry (Some {["skip" := ""]}) = true.
Proof.
  apply (handleSkipOption_agrees_with_isSkipEntry "skip-changelog"
           FakeHost.octokit "opensearch-project" "OpenSearch" 7
           updatePRLabel (Some {["skip" := ""]}) (FakeHost.mkHost true [])).
  reflexivity.
Defined.

(** X16: run with [updatePRLabel], as the workflow does, [handleSkipOption]
    returns a boolean or throws [CategoryWithSkipOptionError] or
    [UpdatePRLabelError], and nothing else, whatever the API does. *)
Theorem handleSkipOption_with_updatePRLabel_errors {W : Type}
  (SKIP_LABEL : string) (octokit : Octokit W) (owner repo : string)
  (prNumber : Z) (entryMap : option (gmap string string)) (w : W) :
  (∃ b, fst (handleSkipOption SKIP_LABEL octokit entryMap owner repo
               prNumber updatePRLabel w) = Return b)
  ∨ fst (handleSkipOption SKIP_LABEL octokit entryMap owner repo prNumber
           updatePRLabel w) = Throw CategoryWithSkipOptionError
  ∨ fst (handleSkipOption SKIP_LABEL octokit entryMap owner repo prNumber
           updatePRLabel w) = Throw UpdatePRLabelError.
Proof.
  assert (∀ flag,
    (∃ b, fst ((_ <~ updatePRLabel octokit owner repo prNumber SKIP_LABEL
                       flag ;; resolve flag) w) = Return b)
    ∨ fst ((_ <~ updatePRLabel octokit owner repo prNumber SKIP_LABEL
                   flag ;; resolve flag) w) = Throw UpdatePRLabelError)
    as Hcall.
  { intros flag. unfold await, resolve.
    destruct (updatePRLabel_outcome octokit owner repo prNumber SKIP_LABEL
                flag w) as [H|H];
      destruct (updatePRLabel _ _ _ _ _ flag w) as [[[]|e] w'];
      simpl in *; try discriminate; [left; by eexists|right; congruence]. }
  unfold handleSkipOption. destruct entryMap as [m|].
  - destruct (includes (Object_keys m) "skip").
    + destruct (_ >? 1); [right; by left|].
      destruct (Hcall true) as [H|H]; [by left|right; by right].
    + destruct (Hcall false) as [H|H]; [by left|right; by right].
  - destruct (Hcall false) as [H|H]; [by left|right; by right].
Qed.

(** ** The [autocut] label *)

(** X17: [isAutocut] never throws and requests nothing but the listing of
    the labels: it ends in the state the listing left.  It answers [true]
    exactly when the listing succeeds with a label whose lower-cased name
    is ["autocut"]; a failed listing answers [false]. *)
Theorem isAutocut_outcome {W : Type} (octokit : Octokit W)
  (prData : PrData.t) (w : W) :
  (∃ b, fst (isAutocut octokit prData w) = Return b)
  ∧ snd (isAutocut octokit prData w)
    = snd (listLabelsOnIssue octokit (PrData.baseOwner prData)
             (PrData.baseRepo prData) (PrData.prNumber prData) w)
  ∧ (fst (isAutocut octokit prData w) = Return true
     ↔ ∃ labels label,
         fst (listLabelsOnIssue octokit (PrData.baseOwner prData)
                (PrData.baseRepo prData) (PrData.prNumber prData) w)
         = Return labels
         ∧ label ∈ labels ∧ toLowerCase (name label) = "autocut").
Proof.
  unfold isAutocut, tryCatch, await, resolve.
  destruct (listLabelsOnIssue _ _ _ _ w) as [[labels|e] w1]; simpl.
  - split; [by eexists|]. split; [done|]. split.
    + intros [= H]. apply existsb_exists in H as (label & Hin & Heq).
      exists labels, label. split; [done|].
      split; [by apply list_elem_of_In|by apply String.eqb_eq].
    + intros (labels' & label & [= <-] & Hin & Heq). f_equal.
      apply existsb_exists. exists label.
      split; [by apply list_elem_of_In|by apply String.eqb_eq].
  - split; [by eexists|]. split; [done|]. split; [discriminate|].
    intros (labels & label & H & _). discriminate H.
Qed.

Lemma isAutocut_outcome_witness :
  isAutocut FakeHost.octokit samplePrData
    (FakeHost.mkHost true [mkLabel "bug"; mkLabel "AutoCut"])
  = (Return true, FakeHost.mkHost true [mkLabel "bug"; mkLabel "AutoCut"])
  ∧ isAutocut FakeHost.octokit samplePrData offline
    = (Return false, offline).
Proof.
  split; [|reflexivity].
  pose proof (isAutocut_outcome FakeHost.octokit samplePrData
                (FakeHost.mkHost true [mkLabel "bug"; mkLabel "AutoCut"]))
    as (_ & Hstate & Htrue).
  apply injective_projections; [|exact Hstate].
  apply Htrue. exists [mkLabel "bug"; mkLabel "AutoCut"], (mkLabel "AutoCut").
  split; [reflexivity|]. split; [|reflexivity]. by do 2 constructor.
Defined.

(** ** Configuration guards *)

Lemma notConfigured_false (constant : option string) :
  notConfigured constant = false
  ↔ ∃ s, constant = Some s ∧ allWhiteSpace s = false.
Proof.
  unfold notConfigured. destruct constant as [s|]; simpl.
  - rewrite orb_false_iff, negb_false_iff. split.
    + intros [_ Htrim]. exists s. split; [done|].
      apply String.eqb_neq in Htrim. apply not_true_is_false.
      by rewrite <- trim_empty.
    + intros (s' & [= <-] & Hws). split.
      * apply negb_true_iff, String.eqb_neq. by intros ->.
      * apply String.eqb_neq. rewrite trim_empty. by rewrite Hws.
  - split; [discriminate|]. by intros (s & H & _).
Qed.

(** X18: each configuration guard completes exactly when its constant is a
    string with at least one code unit that is not white space; an unset,
    empty or blank constant makes the domain guard throw
    [MissingChangelogPullRequestBridgeUrlDomainError] and the key guard
    throw [MissingChangelogPullRequestBridgeApiKeyError]. *)
Theorem configuration_guards (constant : option string) :
  (checkChangelogPrBridgeUrlDomainIsConfigured constant = Completes tt
   ↔ ∃ s, constant = Some s ∧ allWhiteSpace s = false)
  ∧ (checkChangelogPrBridgeApiKeyIsConfigured constant = Completes tt
     ↔ ∃ s, constant = Some s ∧ allWhiteSpace s = false)
  ∧ (checkChangelogPrBridgeUrlDomainIsConfigured constant ≠ Completes tt →
     checkChangelogPrBridgeUrlDomainIsConfigured constant
     = Throws MissingChangelogPullRequestBridgeUrlDomainError)
  ∧ (checkChangelogPrBridgeApiKeyIsConfigured constant ≠ Completes tt →
     checkChangelogPrBridgeApiKeyIsConfigured constant
     = Throws MissingChangelogPullRequestBridgeApiKeyError).
Proof.
  unfold checkChangelogPrBridgeUrlDomainIsConfigured,
    checkChangelogPrBridgeApiKeyIsConfigured.
  rewrite <- notConfigured_false.
  destruct (notConfigured constant); repeat split; try done.
Qed.

Lemma configuration_guards_witness :
  checkChangelogPrBridgeUrlDomainIsConfigured (Some "  bridge.example.org ")
  = Completes tt
  ∧ checkChangelogPrBridgeApiKeyIsConfigured (Some "   ")
    = Throws MissingChangelogPullRequestBridgeApiKeyError.
Proof.
  split.
  - apply (proj1 (configuration_guards (Some "  bridge.example.org "))).
    eexists. split; reflexivity.
  - apply (proj2 (proj2 (proj2 (configuration_guards (Some "   "))))).
    discriminate.
Defined.

(** ** Comments on the pull request *)

Lemma comment_text_truthy (n m : string) :
  truthy (Some (n ++ ": " ++ m)) = true.
Proof. destruct n; reflexivity. Qed.

(** X19: [postPRComment] never throws: a failure of the comment request is
    caught, with any API and any [getErrorComment] passed to it. *)
Theorem postPRComment_never_throws {W : Type}
  (octokit : OctokitComments W) (owner repo : string) (prNumber : Z)
  (errorInput : CustomErrors.ErrorObject)
  (commentOf : CustomErrors.ErrorObject -> option string) (w : W) :
  fst (postPRComment octokit owner repo prNumber errorInput commentOf w)
  = Return tt.
Proof.
  unfold postPRComment, tryCatch, resolve.
  destruct (commentOf errorInput) as [body|]; [|done].
  destruct (truthy (Some body)); [|done].
  by destruct (createComment _ _ _ _ _ w) as [[[]|e] w'].
Qed.

(** X20: with the repository's [getErrorComment], [postPRComment] requests
    a comment exactly for the errors flagged [shouldResultInPRComment]: for
    a flagged error it ends in the state left by one [createComment] whose
    body is the error's name, a colon and a space, and its message; for any
    other error it requests nothing and leaves the state as it was. *)
Theorem postPRComment_follows_flag {W : Type}
  (octokit : OctokitComments W) (owner repo : string) (prNumber : Z)
  (errorInput : CustomErrors.ErrorObject) (w : W) :
  snd (postPRComment octokit owner repo prNumber errorInput
         getErrorComment w)
  = if CustomErrors.shouldResultInPRComment errorInput
    then snd (createComment octokit owner repo prNumber
                (CustomErrors.name errorInput ++ ": "
                 ++ CustomErrors.message errorInput) w)
    else w.
Proof.
  unfold postPRComment, getErrorComment, tryCatch, resolve.
  destruct (CustomErrors.shouldResultInPRComment errorInput); [|done].
  rewrite comment_text_truthy.
  by destruct (createComment _ _ _ _ _ w) as [[[]|e] w'].
Qed.

(** X21: of the three error classes, only
    [GitHubAppSuspendedOrNotInstalledError] reaches the pull request: its
    comment starts with the class name and carries the message, while
    [MissingGitHubAppDomainError] and [MissingChangelogBridgeApiKeyError]
    give no comment and [postPRComment] requests nothing for them, for all
    values of the four constants in the messages. *)
Theorem only_the_app_error_is_commented {W : Type}
  (GITHUB_APP_NAME GITHUB_APP_INSTALLATION_LINK TOOL_NAME TOOL_DOCS : string)
  (octokit : OctokitComments W) (owner repo : string) (prNumber : Z)
  (w : W) :
  getErrorComment
    (CustomErrors.GitHubAppSuspendedOrNotInstalledError GITHUB_APP_NAME
       GITHUB_APP_INSTALLATION_LINK TOOL_NAME TOOL_DOCS)
  = Some ("GitHubAppSuspendedOrNotInstalledError: ["
          ++ GITHUB_APP_NAME ++ "](" ++ GITHUB_APP_INSTALLATION_LINK
          ++ ") is suspended or not installed in your forked repository. "
          ++ "Please ensure the app is installed and has the necessary permissions."
          ++ CustomErrors.LF ++ CustomErrors.LF
          ++ "For more information, visit [" ++ TOOL_NAME ++ "]("
          ++ TOOL_DOCS ++ ").")
  ∧ getErrorComment
      (CustomErrors.MissingGitHubAppDomainError TOOL_NAME TOOL_DOCS) = None
  ∧ getErrorComment
      (CustomErrors.MissingChangelogBridgeApiKeyError TOOL_NAME TOOL_DOCS)
    = None
  ∧ postPRComment octokit owner repo prNumber
      (CustomErrors.MissingGitHubAppDomainError TOOL_NAME TOOL_DOCS)
      getErrorComment w = (Return tt, w)
  ∧ postPRComment octokit owner repo prNumber
      (CustomErrors.MissingChangelogBridgeApiKeyError TOOL_NAME TOOL_DOCS)
      getErrorComment w = (Return tt, w).
Proof. repeat split. Qed.

(** ** The changeset file *)

(** X22: when the lookup of the file fails with anything but status 404,
    [createOrUpdateFile] throws [GetGithubContentError] in the state the
    lookup left and requests no write, whatever the write would do. *)
Theorem createOrUpdateFile_lookup_failure {W : Type}
  (octokit : OctokitRepos W)
  (owner repo path content message branchRef : string)
  (e : error) (w w1 : W) :
  getContent octokit owner repo path branchRef w = (Throw e, w1) →
  statusOf e ≠ Some 404 →
  createOrUpdateFile octokit owner repo path content message branchRef w
  = (Throws GetGithubContentError, w1).
Proof.
  intros Hget Hstatus. unfold createOrUpdateFile. rewrite Hget.
  destruct (statusOf e) as [status|]; [|done].
  destruct status as [|status|status]; try done.
  destruct (decide (status = 404%positive)) as [->|Hne]; [done|].
  repeat (destruct status as [status|status|]; try done).
Qed.

Lemma createOrUpdateFile_lookup_failure_witness :
  createOrUpdateFile (scriptedRepos (Throw (RequestError 500)) (Return tt))
    "opensearch-project" "OpenSearch" "changelogs/fragments/7.yml"
    "ZmVhdA==" "Add changeset" "feature" 0%nat
  = (Throws GetGithubContentError, 1%nat)
  ∧ createOrUpdateFile (scriptedRepos (Throw TypeError) (Return tt))
      "opensearch-project" "OpenSearch" "changelogs/fragments/7.yml"
      "ZmVhdA==" "Add changeset" "feature" 0%nat
    = (Throws GetGithubContentError, 1%nat).
Proof.
  split.
  - apply (createOrUpdateFile_lookup_failure _ _ _ _ _ _ _
             (RequestError 500)); [reflexivity|discriminate].
  - apply (createOrUpdateFile_lookup_failure _ _ _ _ _ _ _ TypeError);
      [reflexivity|discriminate].
Defined.

(** X23: once the lookup has answered, with a [sha] or with status 404 (no
    file, hence no [sha]), the write is requested with that [sha], and the
    outcome follows the write: completion when it completes; when it fails,
    [UpdateChangesetFileError] if the lookup gave a non-empty [sha] and
    [CreateChangesetFileError] if it gave none. *)
Theorem createOrUpdateFile_write_outcome {W : Type}
  (octokit : OctokitRepos W)
  (owner repo path content message branchRef : string)
  (lookup : completion (option string)) (sha : option string)
  (written : completion unit) (w w1 w2 : W) :
  getContent octokit owner repo path branchRef w = (lookup, w1) →
  (lookup = Return sha
   ∨ sha = None ∧ ∃ e, lookup = Throw e ∧ statusOf e = Some 404) →
  createOrUpdateFileContents octokit owner repo path message content sha
    branchRef w1 = (written, w2) →
  createOrUpdateFile octokit owner repo path content message branchRef w
  = (match written with
     | Return _ => Completes tt
     | Throw _ =>
         Throws (if truthy sha then UpdateChangesetFileError
                 else CreateChangesetFileError)
     end, w2).
Proof.
  intros Hget Hlookup Hwrite. unfold createOrUpdateFile. rewrite Hget.
  assert (writeChangesetFile octokit owner repo path content message
            branchRef sha w1
          = (match written with
             | Return _ => Completes tt
             | Throw _ =>
                 Throws (if truthy sha then UpdateChangesetFileError
                         else CreateChangesetFileError)
             end, w2)) as Hsecond.
  { unfold writeChangesetFile. rewrite Hwrite.
    destruct written; [done|]. by destruct (truthy sha). }
  destruct Hlookup as [->|(-> & e & -> & Hstatus)]; [done|].
  by rewrite Hstatus.
Qed.

Lemma createOrUpdateFile_write_outcome_witness :
  createOrUpdateFile
    (scriptedRepos (Throw (RequestError 404)) (Throw (RequestError 422)))
    "opensearch-project" "OpenSearch" "changelogs/fragments/7.yml"
    "ZmVhdA==" "Add changeset" "feature" 0%nat
  = (Throws CreateChangesetFileError, 2%nat)
  ∧ createOrUpdateFile
      (scriptedRepos (Return (Some "3d21ec5")) (Throw (RequestError 409)))
      "opensearch-project" "OpenSearch" "changelogs/fragments/7.yml"
      "ZmVhdA==" "Add changeset" "feature" 0%nat
    = (Throws UpdateChangesetFileError, 2%nat)
  ∧ createOrUpdateFile
      (scriptedRepos (Return (Some "3d21ec5")) (Return tt))
      "opensearch-project" "OpenSearch" "changelogs/fragments/7.yml"
      "ZmVhdA==" "Add changeset" "feature" 0%nat
    = (Completes tt, 2%nat).
Proof.
  split; [|split].
  - apply (createOrUpdateFile_write_outcome _ _ _ _ _ _ _
             (Throw (RequestError 404)) None (Throw (RequestError 422))
             0%nat 1%nat 2%nat).
    + reflexivity.
    + right. split; [reflexivity|]. by exists (RequestError 404).
    + reflexivity.
  - apply (createOrUpdateFile_write_outcome _ _ _ _ _ _ _
             (Return (Some "3d21ec5")) (Some "3d21ec5")
             (Throw (RequestError 409)) 0%nat 1%nat 2%nat).
    + reflexivity.
    + by left.
    + reflexivity.
  - apply (createOrUpdateFile_write_outcome _ _ _ _ _ _ _
             (Return (Some "3d21ec5")) (Some "3d21ec5") (Return tt)
             0%nat 1%nat 2%nat).
    + reflexivity.
    + by left.
    + reflexivity.
Defined.
